(** * zbeacon: LAN service announcement and discovery

    A shallow embedding of [pyre/zbeacon.py]: the [ZBeacon] facade, the
    [ZBeaconAgent] background agent with its command handler, its
    receive-and-filter cycle, its send-with-recovery and its event loop.

    Python objects are records updated by explicit state passing; the
    outside world (clock, UDP socket, poller) is an oracle read by the
    agent, and every side effect is appended to a trace.  Exceptions are
    an error result threaded through a small state-and-error monad.
    The semantics followed is that of Python 3, where [socket.error] is
    [OSError]. *)

From Stdlib Require Import List String ZArith QArith Qabs Bool Lia Lqa.
From Stdlib Require Import Strings.Byte DecimalString.
Import ListNotations.


(** ** Byte strings *)

(** A Python [bytes] value. *)
Definition bytes := list byte.

Fixpoint bytes_eqb (x y : bytes) : bool :=
  match x, y with
  | [], [] => true
  | a :: x', b :: y' => Byte.eqb a b && bytes_eqb x' y'
  | _, _ => false
  end.

(** [s.encode('utf-8')] for a literal: a Rocq string already is the
    sequence of its UTF-8 bytes. *)
Definition encode (s : string) : bytes := list_byte_of_string s.

(** [data[:n]]. *)
Definition slice_to (n : nat) (data : bytes) : bytes := firstn n data.

(** [D] begins with the bytes of [F]. *)
Definition starts_with (F D : bytes) : Prop := exists rest, D = F ++ rest.

(** Truth value of an attribute that holds [None] or a [bytes] object:
    [None] and [b''] are both false. *)
Definition truthy (o : option bytes) : bool :=
  match o with
  | Some (_ :: _) => true
  | _ => false
  end.

(** [x == data] where [x] is [None] or [bytes] and [data] is [bytes]. *)
Definition eq_data (x : option bytes) (data : bytes) : bool :=
  match x with
  | Some p => bytes_eqb p data
  | None => false
  end.

Definition in_range (lo hi : N) (b : byte) : bool :=
  ((lo <=? Byte.to_N b) && (Byte.to_N b <=? hi))%N.

Definition cont (b : byte) : bool := in_range 128 191 b.

(** Strict UTF-8 well-formedness, as [bytes.decode('UTF-8')] checks it:
    no overlong forms, no surrogates, nothing above U+10FFFF. *)
Fixpoint utf8_valid (s : bytes) : bool :=
  match s with
  | [] => true
  | b0 :: t0 =>
    if in_range 0 127 b0 then utf8_valid t0
    else match t0 with
    | [] => false
    | b1 :: t1 =>
      if in_range 194 223 b0 then cont b1 && utf8_valid t1
      else match t1 with
      | [] => false
      | b2 :: t2 =>
        if in_range 224 239 b0 then
          (if in_range 224 224 b0 then in_range 160 191 b1
           else if in_range 237 237 b0 then in_range 128 159 b1
           else cont b1) && cont b2 && utf8_valid t2
        else match t2 with
        | [] => false
        | b3 :: t3 =>
          in_range 240 244 b0 &&
          (if in_range 240 240 b0 then in_range 144 191 b1
           else if in_range 244 244 b0 then in_range 128 143 b1
           else cont b1) && cont b2 && cont b3 && utf8_valid t3
        end
      end
    end
  end.

(** *** [int(b)] on a bytes object: optional surrounding white space, an
    optional sign, decimal digits with single underscores between them. *)

Definition is_space (b : byte) : bool :=
  in_range 9 13 b || in_range 32 32 b.

Fixpoint lstrip (s : bytes) : bytes :=
  match s with
  | b :: t => if is_space b then lstrip t else s
  | [] => []
  end.

Definition strip (s : bytes) : bytes := rev (lstrip (rev (lstrip s))).

Definition digit_val (b : byte) : option Z :=
  if in_range 48 57 b then Some (Z.of_N (Byte.to_N b) - 48)%Z else None.

Fixpoint parse_digits (acc : Z) (after_digit : bool) (s : bytes) : option Z :=
  match s with
  | [] => if after_digit then Some acc else None
  | b :: t =>
    match digit_val b with
    | Some d => parse_digits (acc * 10 + d)%Z true t
    | None =>
      if in_range 95 95 b && after_digit then parse_digits acc false t
      else None
    end
  end.

(** [None] stands for [ValueError]. *)
Definition int_of_bytes (s : bytes) : option Z :=
  match strip s with
  | b :: t =>
    if in_range 43 43 b then parse_digits 0 false t
    else if in_range 45 45 b then option_map Z.opp (parse_digits 0 false t)
    else parse_digits 0 false (b :: t)
  | [] => None
  end.

(** ** Module constants *)

(** Max size of beacon data. *)
Definition BEACON_MAX : nat := 255.

(** Default interval = 1 second. *)
Definition INTERVAL_DFLT : Q := 1.

(** ** The control channel

    One direction of the ZeroMQ pair socket.  Frames sent with [SNDMORE]
    wait in [pending]; a send without the flag closes the message and
    queues it. *)
Module Pipe.

Record t := mk { pending : list bytes; queue : list (list bytes) }.

Definition empty : t := mk [] [].

(** [send(frame, flags=zmq.SNDMORE)]. *)
Definition send_more (frame : bytes) (p : t) : t :=
  mk (pending p ++ [frame]) (queue p).

(** [send(frame)]. *)
Definition send (frame : bytes) (p : t) : t :=
  mk [] (queue p ++ [pending p ++ [frame]]).

End Pipe.

(** A message on the agent-to-facade direction is a [PeerAnnouncement]
    when it has the two frames sender address and data. *)
Definition is_announcement (msg : list bytes) : bool :=
  match msg with
  | [_; _] => true
  | _ => false
  end.

(** The shutdown acknowledgment is the one-frame message [OK]. *)
Definition is_ack (msg : list bytes) : bool :=
  match msg with
  | [f] => bytes_eqb f (encode "OK")
  | _ => false
  end.

(** ** IPv4 addresses (the part of [ipaddress] the agent uses) *)

Definition IPv4Address := Z.

Definition octet (i : Z) (a : IPv4Address) : Z :=
  Z.land (Z.shiftr a (8 * i)) 255.

Definition dec (z : Z) : string := NilZero.string_of_uint (N.to_uint (Z.to_N z)).

(** [str(address)]: dotted quad. *)
Definition str_ip (a : IPv4Address) : string :=
  (dec (octet 3 a) ++ "." ++ dec (octet 2 a) ++ "." ++
   dec (octet 1 a) ++ "." ++ dec (octet 0 a))%string.

(** [str(x)] for an attribute that is [None] or an address. *)
Definition str_opt (a : option IPv4Address) : string :=
  match a with
  | Some x => str_ip x
  | None => "None"%string
  end.

(** 224.0.0.0/4. *)
Definition is_multicast (a : IPv4Address) : bool :=
  (Z.shiftr a 28 =? 14)%Z.

(** 127.0.0.0/8. *)
Definition is_loopback (a : IPv4Address) : bool :=
  (Z.shiftr a 24 =? 127)%Z.

(** [ipaddress.ip_interface("addr/netmask")], parsed. *)
Record IPv4Interface := { ip : IPv4Address; netmask : Z }.

Definition if_network_address (i : IPv4Interface) : IPv4Address :=
  Z.land (ip i) (netmask i).

Definition if_broadcast_address (i : IPv4Interface) : IPv4Address :=
  Z.lor (if_network_address i) (Z.lxor (netmask i) 4294967295).

(** 255.255.255.255, the default [announce_addr]. *)
Definition LIMITED_BROADCAST : IPv4Address := 4294967295%Z.

(** ** Exceptions, effects and the outside world *)

Inductive exn :=
| IndexError          (* [cmds.pop(0)] on an empty list *)
| ValueError          (* [int(...)] on a malformed number *)
| UnicodeDecodeError  (* [cmd.decode('UTF-8')] *)
| UnboundLocalError   (* a local read before assignment *)
| AttributeError      (* attribute access on [None] *)
| TypeError           (* [sendto(None, ...)] *)
| OverflowError       (* an [int] too large to convert to [float] *)
| OSError.            (* [socket.error] and its subclasses *)

Definition exn_eqb (x y : exn) : bool :=
  match x, y with
  | IndexError, IndexError
  | ValueError, ValueError
  | UnicodeDecodeError, UnicodeDecodeError
  | UnboundLocalError, UnboundLocalError
  | AttributeError, AttributeError
  | TypeError, TypeError
  | OverflowError, OverflowError
  | OSError, OSError => true
  | _, _ => false
  end.

Inductive result (A : Type) :=
| Ok (a : A)
| Raise (e : exn).

Arguments Ok {A} a.
Arguments Raise {A} e.

Inductive level := DEBUG | ERROR | EXCEPTION.

(** What the agent does to the world, in order. *)
Inductive event :=
| Log (lvl : level) (msg : string)
| SetSockOpt (lvl opt : string)
| Bind (host : string) (port : Z)
| SendTo (data : bytes) (host : string) (port : Z)
| Poll (timeout_ms : Q).

Definition is_sendto (e : event) : bool :=
  match e with SendTo _ _ _ => true | _ => false end.

Definition is_poll (e : event) : bool :=
  match e with Poll _ => true | _ => false end.

(** The environment of the agent.  The [k]-th call of [time.time()]
    returns [clock k] (seconds, as exact rationals); the [k]-th call on
    the UDP socket succeeds iff [sock_ok k]. *)
Record World := {
  clock : nat -> Q;
  ticks : nat;
  sock_ok : nat -> bool;
  calls : nat;
  platform : string;          (* [sys.platform] *)
  has_reuseport : bool;       (* does [socket] define [SO_REUSEPORT]? *)
  trace : list event
}.

Definition tick (w : World) : World :=
  {| clock := clock w; ticks := S (ticks w); sock_ok := sock_ok w;
     calls := calls w; platform := platform w;
     has_reuseport := has_reuseport w; trace := trace w |}.

Definition called (w : World) : World :=
  {| clock := clock w; ticks := ticks w; sock_ok := sock_ok w;
     calls := S (calls w); platform := platform w;
     has_reuseport := has_reuseport w; trace := trace w |}.

Definition emit (e : event) (w : World) : World :=
  {| clock := clock w; ticks := ticks w; sock_ok := sock_ok w;
     calls := calls w; platform := platform w;
     has_reuseport := has_reuseport w; trace := trace w ++ [e] |}.

(** ** The agent object *)

Record ZBeaconAgent := {
  _pipe : Pipe.t;                       (* socket to talk back to application *)
  _port : Z;                            (* UDP port number we work on *)
  _interval : Q;                        (* beacon broadcast interval *)
  _enabled : bool;                      (* are we broadcasting? *)
  _noecho : bool;                       (* ignore own (unique) beacons? *)
  _terminated : bool;                   (* API shut us down *)
  _ping_at : Q;                         (* next broadcast time *)
  transmit : option bytes;              (* beacon transmit data *)
  _filter : option bytes;               (* beacon filter data *)
  filter : option (option bytes);       (* attribute [filter]: absent until assigned *)
  address : option IPv4Address;         (* our own address *)
  network_address : option IPv4Address;
  broadcast_address : option IPv4Address;
  interface_name : option string;
  announce_address : option IPv4Address
}.

Definition with_pipe (v : Pipe.t) (a : ZBeaconAgent) : ZBeaconAgent :=
  {| _pipe := v; _port := _port a; _interval := _interval a;
     _enabled := _enabled a; _noecho := _noecho a;
     _terminated := _terminated a; _ping_at := _ping_at a;
     transmit := transmit a; _filter := _filter a; filter := filter a;
     address := address a; network_address := network_address a;
     broadcast_address := broadcast_address a;
     interface_name := interface_name a;
     announce_address := announce_address a |}.

Definition with_interval (v : Q) (a : ZBeaconAgent) : ZBeaconAgent :=
  {| _pipe := _pipe a; _port := _port a; _interval := v;
     _enabled := _enabled a; _noecho := _noecho a;
     _terminated := _terminated a; _ping_at := _ping_at a;
     transmit := transmit a; _filter := _filter a; filter := filter a;
     address := address a; network_address := network_address a;
     broadcast_address := broadcast_address a;
     interface_name := interface_name a;
     announce_address := announce_address a |}.

Definition with_noecho (v : bool) (a : ZBeaconAgent) : ZBeaconAgent :=
  {| _pipe := _pipe a; _port := _port a; _interval := _interval a;
     _enabled := _enabled a; _noecho := v;
     _terminated := _terminated a; _ping_at := _ping_at a;
     transmit := transmit a; _filter := _filter a; filter := filter a;
     address := address a; network_address := network_address a;
     broadcast_address := broadcast_address a;
     interface_name := interface_name a;
     announce_address := announce_address a |}.

Definition with_terminated (v : bool) (a : ZBeaconAgent) : ZBeaconAgent :=
  {| _pipe := _pipe a; _port := _port a; _interval := _interval a;
     _enabled := _enabled a; _noecho := _noecho a;
     _terminated := v; _ping_at := _ping_at a;
     transmit := transmit a; _filter := _filter a; filter := filter a;
     address := address a; network_address := network_address a;
     broadcast_address := broadcast_address a;
     interface_name := interface_name a;
     announce_address := announce_address a |}.

Definition with_ping_at (v : Q) (a : ZBeaconAgent) : ZBeaconAgent :=
  {| _pipe := _pipe a; _port := _port a; _interval := _interval a;
     _enabled := _enabled a; _noecho := _noecho a;
     _terminated := _terminated a; _ping_at := v;
     transmit := transmit a; _filter := _filter a; filter := filter a;
     address := address a; network_address := network_address a;
     broadcast_address := broadcast_address a;
     interface_name := interface_name a;
     announce_address := announce_address a |}.

Definition with_transmit (v : option bytes) (a : ZBeaconAgent) : ZBeaconAgent :=
  {| _pipe := _pipe a; _port := _port a; _interval := _interval a;
     _enabled := _enabled a; _noecho := _noecho a;
     _terminated := _terminated a; _ping_at := _ping_at a;
     transmit := v; _filter := _filter a; filter := filter a;
     address := address a; network_address := network_address a;
     broadcast_address := broadcast_address a;
     interface_name := interface_name a;
     announce_address := announce_address a |}.

(** [self._filter = v]. *)
Definition with__filter (v : option bytes) (a : ZBeaconAgent) : ZBeaconAgent :=
  {| _pipe := _pipe a; _port := _port a; _interval := _interval a;
     _enabled := _enabled a; _noecho := _noecho a;
     _terminated := _terminated a; _ping_at := _ping_at a;
     transmit := transmit a; _filter := v; filter := filter a;
     address := address a; network_address := network_address a;
     broadcast_address := broadcast_address a;
     interface_name := interface_name a;
     announce_address := announce_address a |}.

(** [self.filter = v]: binds the attribute named [filter]. *)
Definition with_filter (v : option bytes) (a : ZBeaconAgent) : ZBeaconAgent :=
  {| _pipe := _pipe a; _port := _port a; _interval := _interval a;
     _enabled := _enabled a; _noecho := _noecho a;
     _terminated := _terminated a; _ping_at := _ping_at a;
     transmit := transmit a; _filter := _filter a; filter := Some v;
     address := address a; network_address := network_address a;
     broadcast_address := broadcast_address a;
     interface_name := interface_name a;
     announce_address := announce_address a |}.

Definition with_announce_address (v : option IPv4Address) (a : ZBeaconAgent)
  : ZBeaconAgent :=
  {| _pipe := _pipe a; _port := _port a; _interval := _interval a;
     _enabled := _enabled a; _noecho := _noecho a;
     _terminated := _terminated a; _ping_at := _ping_at a;
     transmit := transmit a; _filter := _filter a; filter := filter a;
     address := address a; network_address := network_address a;
     broadcast_address := broadcast_address a;
     interface_name := interface_name a;
     announce_address := v |}.

(** The four attributes the interface scan assigns together. *)
Definition with_binding (name : string) (i : IPv4Interface) (a : ZBeaconAgent)
  : ZBeaconAgent :=
  {| _pipe := _pipe a; _port := _port a; _interval := _interval a;
     _enabled := _enabled a; _noecho := _noecho a;
     _terminated := _terminated a; _ping_at := _ping_at a;
     transmit := transmit a; _filter := _filter a; filter := filter a;
     address := Some (ip i);
     network_address := Some (if_network_address i);
     broadcast_address := Some (if_broadcast_address i);
     interface_name := Some name;
     announce_address := announce_address a |}.

(** ** A state-and-error monad over the agent and the world *)

Definition State := (ZBeaconAgent * World)%type.

Definition M (A : Type) := State -> result A * State.

Definition ret {A} (x : A) : M A := fun s => (Ok x, s).

Definition raise {A} (e : exn) : M A := fun s => (Raise e, s).

Definition bind {A B} (m : M A) (k : A -> M B) : M B :=
  fun s =>
    match m s with
    | (Ok x, s') => k x s'
    | (Raise e, s') => (Raise e, s')
    end.

Declare Scope py_scope.
Delimit Scope py_scope with py.
Notation "x <- m ;; k" := (bind m (fun x => k))
  (at level 61, m at next level, right associativity) : py_scope.
Notation "m ;; k" := (bind m (fun _ => k))
  (at level 61, right associativity) : py_scope.
Open Scope py_scope.

(** [try: body except e: handler]. *)
Definition try_except (body : M unit) (e : exn) (handler : M unit) : M unit :=
  fun s =>
    match body s with
    | (Ok x, s') => (Ok x, s')
    | (Raise e', s') => if exn_eqb e e' then handler s' else (Raise e', s')
    end.

Definition self : M ZBeaconAgent := fun s => (Ok (fst s), s).

Definition world : M World := fun s => (Ok (snd s), s).

Definition assign (f : ZBeaconAgent -> ZBeaconAgent) : M unit :=
  fun s => (Ok tt, (f (fst s), snd s)).

Definition effect (e : event) : M unit :=
  fun s => (Ok tt, (fst s, emit e (snd s))).

Definition logger (lvl : level) (msg : string) : M unit := effect (Log lvl msg).

(** [time.time()]. *)
Definition time_time : M Q :=
  fun s => (Ok (clock (snd s) (ticks (snd s))), (fst s, tick (snd s))).

(** One call on the UDP socket: recorded, then it succeeds or raises
    [socket.error] as the world decides. *)
Definition udp_call (e : event) : M unit :=
  fun s =>
    let w := snd s in
    let w' := called (emit e w) in
    if sock_ok w (calls w) then (Ok tt, (fst s, w'))
    else (Raise OSError, (fst s, w')).

(** [self._pipe.send_unicode(s, zmq.SNDMORE)] / [self._pipe.send(b)]. *)
Definition pipe_send_more (frame : bytes) : M unit :=
  assign (fun a => with_pipe (Pipe.send_more frame (_pipe a)) a).

Definition pipe_send (frame : bytes) : M unit :=
  assign (fun a => with_pipe (Pipe.send frame (_pipe a)) a).

(** ** ZBeaconAgent: socket initialisation *)

Definition setsockopt (lvl opt : string) : M unit := udp_call (SetSockOpt lvl opt).

Definition bind_socket (host : string) (port : Z) : M unit :=
  udp_call (Bind host port).

(** [platform.startswith(p)]. *)
Definition startswith (p s : string) : bool := String.prefix p s.

Definition _init_socket : M unit :=
  try_except
    (a <- self ;;
     match announce_address a with
     | None => raise AttributeError      (* [None.is_multicast] *)
     | Some ann =>
       if is_multicast ann then
         setsockopt "IPPROTO_IP" "IP_MULTICAST_TTL" ;;
         setsockopt "IPPROTO_IP" "IP_MULTICAST_LOOP" ;;
         setsockopt "SOL_IP" "IP_ADD_MEMBERSHIP" ;;
         setsockopt "SOL_SOCKET" "SO_REUSEADDR" ;;
         (* [socket.self] raises AttributeError, which is passed over *)
         bind_socket (str_opt (address a)) (_port a)
       else
         setsockopt "SOL_SOCKET" "SO_BROADCAST" ;;
         setsockopt "SOL_SOCKET" "SO_REUSEADDR" ;;
         w <- world ;;
         (if has_reuseport w then setsockopt "SOL_SOCKET" "SO_REUSEPORT"
          else ret tt) ;;
         (if startswith "win" (platform w) then
            assign (with_announce_address (broadcast_address a)) ;;
            bind_socket "" (_port a)
          else if startswith "darwin" (platform w)
                  || startswith "freebsd" (platform w) then
            assign (with_announce_address (broadcast_address a)) ;;
            bind_socket "" (_port a)
          else
            assign (with_announce_address (broadcast_address a)) ;;
            bind_socket (str_opt (broadcast_address a)) (_port a)) ;;
         logger DEBUG "Set up a broadcast beacon to {0}:{1}"
     end)
    OSError
    (logger EXCEPTION "Initializing of {0} raised an exception").

(** ** ZBeaconAgent: command handling *)

(** [cmds.pop(0)] as an expression: the frame, or [IndexError]. *)
Definition pop0 (cmds : list bytes) : M (bytes * list bytes) :=
  match cmds with
  | f :: rest => ret (f, rest)
  | [] => raise IndexError
  end.

(** [cmd == name] after [cmd.decode('UTF-8')]; the names are ASCII. *)
Definition is_cmd (cmd : bytes) (name : string) : bool :=
  bytes_eqb cmd (encode name).

(** [api_command], on the message [cmds] that [recv_multipart] returns. *)
Definition api_command (cmds : list bytes) : M unit :=
  p <- pop0 cmds ;;
  let cmd := fst p in
  let cmds := snd p in
  if negb (utf8_valid cmd) then raise UnicodeDecodeError
  else if is_cmd cmd "INTERVAL" then
    p <- pop0 cmds ;;
    match int_of_bytes (fst p) with
    | Some n => assign (with_interval (inject_Z n))
    | None => raise ValueError
    end
  else if is_cmd cmd "NOECHO" then
    assign (with_noecho true)
  else if is_cmd cmd "PUBLISH" then
    p <- pop0 cmds ;;
    assign (with_transmit (Some (fst p))) ;;
    (* start broadcasting immediately *)
    now <- time_time ;;
    assign (with_ping_at now)
  else if is_cmd cmd "SILENCE" then
    assign (with_transmit None)
  else if is_cmd cmd "SUBSCRIBE" then
    p <- pop0 cmds ;;
    assign (with__filter (Some (fst p)))
  else if is_cmd cmd "UNSUBSCRIBE" then
    assign (with_filter None)
  else if is_cmd cmd "$TERM" then
    assign (with_terminated true) ;;
    pipe_send (encode "OK")
  else
    logger DEBUG "Unexpected API command {0}, {1}".

(** ** ZBeaconAgent: send with recovery *)

(** [self._udp_sock.sendto(self.transmit, (str(self.announce_address), self._port))]. *)
Definition sendto : M unit :=
  a <- self ;;
  match transmit a with
  | Some data => udp_call (SendTo data (str_opt (announce_address a)) (_port a))
  | None => raise TypeError
  end.

Definition send : M unit :=
  try_except sendto OSError
    (logger DEBUG "Network seems gone, reinitialising the socket" ;;
     _init_socket ;;
     (* if failed after reinit an exception will be raised *)
     sendto).

(** ** ZBeaconAgent: the receive-and-filter cycle *)

(** What [recvfrom] does when the socket is readable: a datagram with
    the sender's (host, port), or [socket.error]. *)
Inductive recvfrom_outcome :=
| Datagram (dgram : bytes) (addr : string * Z)
| SocketError.

(** [recvfrom(bufsize)] keeps at most [bufsize] bytes of the datagram. *)
Definition recvfrom (bufsize : nat) (dgram : bytes) : bytes := firstn bufsize dgram.

(** The filter test of [recv]: true when the beacon is thrown away. *)
Definition filter_mismatch (flt : option bytes) (data : bytes) : bool :=
  match flt with
  | Some f =>
    if truthy flt then
      if List.length f <? List.length data then
        negb (bytes_eqb (slice_to (List.length f) data) f)
      else false
    else false
  | None => false
  end.

Definition recv (o : recvfrom_outcome) : M unit :=
  bound <- match o with
           | Datagram dgram addr => ret (Some (recvfrom BEACON_MAX dgram, addr))
           | SocketError =>
             logger EXCEPTION "Exception while receiving" ;; ret None
           end ;;
  match bound with
  | None => raise UnboundLocalError        (* [peername = addr[0]] *)
  | Some (data, addr) =>
    (* get sender address as printable string *)
    let peername := fst addr in
    a <- self ;;
    (* if filter is set, check that beacon matches it *)
    if filter_mismatch (_filter a) data then
      logger DEBUG "Received beacon doesn't match filter, discarding"
    (* if noEcho is set, check if beacon is our own and ignore it *)
    else if _noecho a && eq_data (transmit a) data then
      ret tt
    else
      (* send the data onto the pipe *)
      pipe_send_more (encode peername) ;;
      pipe_send data
  end.

(** ** ZBeaconAgent: the event loop *)

(** What one return of [poller.poll] reports: the message waiting on the
    control channel, if it is readable, and what reading the UDP socket
    gives, if it is readable. *)
Record poll_items := {
  pipe_in : option (list bytes);
  udp_in : option recvfrom_outcome
}.

(** How [run] leaves off: the loop was left by [break], or the script of
    poll results is used up and the agent sits in [poll]. *)
Inductive loop_end := Terminated | Polling.

Definition Qltb (x y : Q) : bool := negb (Qle_bool y x).

(** *** Floating-point numbers

    A Python [float] is an IEEE-754 double; it is represented by the
    rational number it denotes.  Only the sum that reschedules the
    beacon is rounded here: the difference and the product that make
    the poll timeout are taken exactly. *)

(** [2^k] as a rational, for any integer [k]. *)
Definition pow2 (k : Z) : Q :=
  if (0 <=? k)%Z then inject_Z (2 ^ k) else 1 # Z.to_pos (2 ^ (- k)).

(** [floor (log2 (p / q))] for positive [p] and [q]. *)
Definition floor_log2 (p q : Z) : Z :=
  let e := (Z.log2 p - Z.log2 q)%Z in
  if (if 0 <=? e then 2 ^ e * q <=? p else q <=? 2 ^ (- e) * p)%Z
  then e else (e - 1)%Z.

(** The integer nearest to [num / den], ties going to the even one
    ([0 <= num], [0 < den]). *)
Definition round_half_even (num den : Z) : Z :=
  let n := (num / den)%Z in
  let r := (num mod den)%Z in
  match (2 * r ?= den)%Z with
  | Lt => n
  | Gt => (n + 1)%Z
  | Eq => if Z.even n then n else (n + 1)%Z
  end.

(** The nearest number of the form [m * 2^u] with [|m| < 2^53] and
    [-1074 <= u], ties going to the even [m]: rounding to double
    precision with gradual underflow, the exponent not yet bounded
    above. *)
Definition round_double (x : Q) : Q :=
  let p := Z.abs (Qnum x) in
  let q := Zpos (Qden x) in
  if (p =? 0)%Z then 0
  else
    let e := floor_log2 p q in
    let u := Z.max (e - 52) (-1074) in
    let m := if (0 <=? u)%Z then round_half_even p (q * 2 ^ u)
             else round_half_even (p * 2 ^ (- u)) q in
    Qred (inject_Z (Z.sgn (Qnum x) * m) * pow2 u).

(** Every double is smaller in magnitude than [2^1024]; this number
    stands for [inf], and its opposite for [-inf]. *)
Definition DBL_LIMIT : Q := inject_Z (2 ^ 1024).

(** The number [v] rounds to a double. *)
Definition converts_to_float (v : Q) : bool :=
  Qltb (Qabs (round_double v)) DBL_LIMIT.

(** The conversion [float.__add__] applies to its right operand: a
    [float] is taken as it is, an [int] is rounded to the nearest double
    and raises [OverflowError] when that is out of range. *)
Definition as_float (v : Q) : M Q :=
  if converts_to_float v then ret (round_double v) else raise OverflowError.

(** [x + y] on floats: the exact sum rounded to the nearest double, an
    infinity when that is out of range. *)
Definition float_add (x y : Q) : Q :=
  let r := round_double (x + y) in
  if Qle_bool DBL_LIMIT r then DBL_LIMIT
  else if Qle_bool r (- DBL_LIMIT) then - DBL_LIMIT
  else r.

(** Step 1 of an iteration: the timeout handed to [poll], in seconds;
    [-1] when nothing is to be transmitted. *)
Definition wait_timeout : M Q :=
  a <- self ;;
  if truthy (transmit a) then
    now <- time_time ;;
    let timeout := _ping_at a - now in
    ret (if Qltb timeout 0 then 0 else timeout)
  else ret (-1).

(** The transmit step of an iteration. *)
Definition transmit_step : M unit :=
  a <- self ;;
  if truthy (transmit a) then
    now <- time_time ;;
    if Qle_bool (_ping_at a) now then
      send ;;
      now <- time_time ;;
      a <- self ;;
      interval <- as_float (_interval a) ;;
      assign (with_ping_at (float_add now interval))
    else ret tt
  else ret tt.

(** The body of the [while] loop up to the termination test. *)
Definition iteration (items : poll_items) : M unit :=
  timeout <- wait_timeout ;;
  effect (Poll (timeout * 1000)) ;;
  match pipe_in items with
  | Some cmds => api_command cmds
  | None => ret tt
  end ;;
  match udp_in items with
  | Some o => recv o
  | None => ret tt
  end ;;
  transmit_step.

(** [run], on the successive results of [poll]. *)
Fixpoint run (script : list poll_items) : M loop_end :=
  match script with
  | [] => ret Polling
  | items :: script' =>
    iteration items ;;
    a <- self ;;
    if _terminated a then
      logger DEBUG "ZBeaconAgent terminated" ;;
      ret Terminated
    else run script'
  end.

(** [Poller.poll(timeout)] waits without limit on a negative timeout. *)
Definition waits_indefinitely (timeout_ms : Q) : Prop := timeout_ms < 0.

(** ** ZBeaconAgent: construction *)

(** One entry of the IPv4 list [netifaces.ifaddresses] gives: the values
    under the keys [addr] and [netmask], when the keys are there. *)
Record address_set := {
  addr : option string;
  netmask_str : option string
}.

(** An interface name with [ifaddresses(name).get(AF_INET)]. *)
Definition interface_entry := (string * option (list address_set))%type.

(** The inner loop: the first address set that has both keys. *)
Fixpoint first_with_both (sets : list address_set) : option string * option string :=
  match sets with
  | [] => (None, None)
  | s :: rest =>
    match addr s, netmask_str s with
    | Some a, Some m => (Some a, Some m)
    | _, _ => first_with_both rest
    end
  end.

(** [not s] for a value that is [None] or a string. *)
Definition not_str (s : option string) : bool :=
  match s with
  | None | Some EmptyString => true
  | Some _ => false
  end.

(** The agent as the first lines of [__init__] set it up. *)
Definition new_agent (pipe : Pipe.t) (port : Z) (announce_addr : IPv4Address)
  : ZBeaconAgent :=
  {| _pipe := pipe;
     _port := port;
     _interval := INTERVAL_DFLT;
     _enabled := true;
     _noecho := true;
     _terminated := false;
     _ping_at := 0;                     (* start bcast immediately *)
     transmit := None;
     _filter := None;                   (* [self._filter = self.transmit] *)
     filter := None;
     address := None;
     network_address := None;
     broadcast_address := None;
     interface_name := None;
     announce_address := Some announce_addr |}.

Section Construction.

(** [ipaddress.ip_interface] on the string [addr/netmask]; [None] is
    its [ValueError]. *)
Variable ip_interface : string -> option IPv4Interface.

(** The loop over [netifaces.interfaces()]. *)
Fixpoint scan_interfaces (interfaces : list interface_entry) : M unit :=
  match interfaces with
  | [] => ret tt
  | (interface_name, inet_addresses) :: rest =>
    logger DEBUG "Checking out interface {0}." ;;
    match inet_addresses with
    | None | Some [] =>
      logger DEBUG "No addresses found for interface {0}." ;;
      scan_interfaces rest
    | Some sets =>
      let (address_str, netmask_str) := first_with_both sets in
      if not_str address_str || not_str netmask_str then
        logger DEBUG "Address or netmask not found for interface {0}." ;;
        scan_interfaces rest
      else
        match address_str, netmask_str with
        | Some a, Some m =>
          match ip_interface (a ++ "/" ++ m)%string with
          | None => raise ValueError
          | Some interface =>
            if is_loopback (ip interface) then
              logger DEBUG "Interface {0} is a loopback device." ;;
              scan_interfaces rest
            else
              (* otherwise all is good, grab the needed information and break *)
              assign (with_binding interface_name interface) ;;
              logger DEBUG "Address: {0}" ;;
              logger DEBUG "Network: {0}" ;;
              logger DEBUG "Broadcast: {0}" ;;
              logger DEBUG "Interface name: {0}"
          end
        | _, _ => ret tt
        end
    end
  end.

(** The body of [__init__] after the attribute defaults; it ends by
    running the loop on what the poller will report. *)
Definition init_body (interfaces : list interface_entry)
           (script : list poll_items) : M loop_end :=
  logger DEBUG "Available interfaces: {0}" ;;
  scan_interfaces interfaces ;;
  logger DEBUG "Finished scanning interfaces." ;;
  a <- self ;;
  (match address a with
   | None => logger ERROR "No suitable interface found."
   | Some _ => ret tt
   end) ;;
  _init_socket ;;
  a <- self ;;
  pipe_send (encode (str_opt (address a))) ;;
  run script.

(** [ZBeaconAgent(ctx, pipe, port, announce_addr)]. *)
Definition __init__ (pipe : Pipe.t) (port : Z) (announce_addr : IPv4Address)
           (interfaces : list interface_entry) (script : list poll_items)
           (w : World) : result loop_end * State :=
  init_body interfaces script (new_agent pipe port announce_addr, w).

End Construction.

(** The scan passes over an entry ([continue]) when it has no IPv4
    address set with both address and netmask, or when its address is a
    loopback address.  No interface qualifies when every entry is passed
    over. *)
Definition passed_over (ip_interface : string -> option IPv4Interface)
           (e : interface_entry) : bool :=
  match snd e with
  | None | Some [] => true
  | Some sets =>
    match first_with_both sets with
    | (Some a, Some m) =>
      not_str (Some a) || not_str (Some m) ||
      match ip_interface (a ++ "/" ++ m)%string with
      | Some i => is_loopback (ip i)
      | None => false
      end
    | _ => true
    end
  end.

(** ** ZBeacon: the facade *)
Module ZBeacon.

(** The facade's end of the control channel, its cached host name and
    what it has logged. *)
Record t := mk {
  _pipe : Pipe.t;
  _hostname : bytes;
  logged : list string
}.

Definition with_pipe (p : Pipe.t) (b : t) : t :=
  mk p (_hostname b) (logged b).

Definition debug (msg : string) (b : t) : t :=
  mk (_pipe b) (_hostname b) (logged b ++ [msg]).

(** [self._hostname = self._pipe.recv_unicode()] on what the agent has
    queued: the first frame, if the agent has reported. *)
Definition recv_hostname (from_agent : Pipe.t) : option bytes :=
  match Pipe.queue from_agent with
  | (f :: _) :: _ => Some f
  | _ => None
  end.

Definition noecho (b : t) : t :=
  with_pipe (Pipe.send (encode "NOECHO") (_pipe b)) b.

(** Start broadcasting beacon to peers at the specified interval. *)
Definition publish (transmit : bytes) (b : t) : t :=
  let b := with_pipe (Pipe.send_more (encode "PUBLISH") (_pipe b)) b in
  with_pipe (Pipe.send transmit (_pipe b)) b.

(** Start listening to other peers; zero-sized filter means get
    everything. *)
Definition subscribe (filter : bytes) (b : t) : t :=
  let b := with_pipe (Pipe.send_more (encode "SUBSCRIBE") (_pipe b)) b in
  if BEACON_MAX <? List.length filter then
    debug "Filter size is too big" b
  else
    with_pipe (Pipe.send filter (_pipe b)) b.

(** Stop listening to other peers. *)
Definition unsubscribe (b : t) : t :=
  with_pipe (Pipe.send (encode "UNSUBSCRIBE") (_pipe b)) b.

End ZBeacon.

(** ** Reading a trace *)

Definition sent_datagrams (tr : list event) : list bytes :=
  flat_map (fun e => match e with SendTo d _ _ => [d] | _ => [] end) tr.


(** Messages the agent has put on the control channel. *)
Definition delivered (s : State) : list (list bytes) := Pipe.queue (_pipe (fst s)).

(** A world for examples: the clock reads [t0], [t0+1], ...; every
    socket call succeeds; Linux. *)
Definition calm_world (t0 : Q) : World :=
  {| clock := fun k => t0 + inject_Z (Z.of_nat k);
     ticks := 0;
     sock_ok := fun _ => true;
     calls := 0;
     platform := "linux";
     has_reuseport := true;
     trace := [] |}.

(** The control channel after a [PeerAnnouncement] has been put on it. *)
Definition deliver (peername : string) (data : bytes) (p : Pipe.t) : Pipe.t :=
  Pipe.send data (Pipe.send_more (encode peername) p).

(** A freshly constructed agent on port 5670 with the default announce
    address, in a calm world whose clock starts at [t0]. *)
Definition fresh (t0 : Q) : State :=
  (new_agent Pipe.empty 5670 LIMITED_BROADCAST, calm_world t0).

(** A peer on the LAN. *)
Definition peer : string * Z := ("10.0.0.2"%string, 5670%Z).

(** Poll results: only the control channel is readable, with [cmds]. *)
Definition command (cmds : list bytes) : poll_items :=
  {| pipe_in := Some cmds; udp_in := None |}.

(** Poll results: nothing is readable (the timeout ran out). *)
Definition idle : poll_items := {| pipe_in := None; udp_in := None |}.

(** The world after the events [tr] have been recorded. *)
Definition emit_all (tr : list event) (w : World) : World :=
  {| clock := clock w; ticks := ticks w; sock_ok := sock_ok w;
     calls := calls w; platform := platform w;
     has_reuseport := has_reuseport w; trace := trace w ++ tr |}.

(** A stand-in for [ipaddress.ip_interface] that knows two interface
    strings: the loopback 127.0.0.1/8 and 192.168.1.5/24. *)
Definition demo_ip_interface (s : string) : option IPv4Interface :=
  if String.eqb s "127.0.0.1/255.0.0.0" then
    Some {| ip := 2130706433%Z; netmask := 4278190080%Z |}
  else if String.eqb s "192.168.1.5/255.255.255.0" then
    Some {| ip := 3232235781%Z; netmask := 4294967040%Z |}
  else None.

(** A host whose only configured IPv4 interface is the loopback. *)
Definition loopback_only : list interface_entry :=
  [("lo"%string,
    Some [{| addr := Some "127.0.0.1"%string;
             netmask_str := Some "255.0.0.0"%string |}]);
   ("tun0"%string, None)].

(** A facade just started, with nothing sent yet. *)
Definition facade0 : ZBeacon.t := ZBeacon.mk Pipe.empty (encode "192.168.1.5") [].

(** A payload of 256 bytes, one more than [BEACON_MAX]. *)
Definition oversized : bytes := repeat "x"%byte 256.

(** ** Frame conditions

    Whatever its outcome, normal or exceptional, the computation [m]
    leaves the attribute [f] of the agent as it was. *)
Definition preserves {A X : Type} (f : ZBeaconAgent -> X) (m : M A) : Prop :=
  forall s, f (fst (snd (m s))) = f (fst s).

(** The computation [m] leaves the component [f] of the world alone. *)
Definition wpreserves {A X : Type} (f : World -> X) (m : M A) : Prop :=
  forall s, f (snd (snd (m s))) = f (snd s).

(** The computation [m] only appends events that satisfy [P]. *)
Definition emits_only {A : Type} (P : event -> Prop) (m : M A) : Prop :=
  forall s, exists tr,
    trace (snd (snd (m s))) = trace (snd s) ++ tr /\ Forall P tr.

Definition is_log (e : event) : Prop :=
  match e with Log _ _ => True | _ => False end.

Definition not_sendto (e : event) : Prop :=
  match e with SendTo _ _ _ => False | _ => True end.


(** A world like [calm_world] whose first call on the UDP socket fails
    and whose later calls succeed. *)
Definition flaky_world : World :=
  {| clock := fun k => inject_Z (Z.of_nat k);
     ticks := 0;
     sock_ok := fun k => negb (k =? 0)%nat;
     calls := 0;
     platform := "linux";
     has_reuseport := true;
     trace := [] |}.


(** The timeout of step 1 when a payload is set: [max(0, ping_at - now)]. *)
Definition timeout_until (ping_at now : Q) : Q :=
  let timeout := ping_at - now in if Qltb timeout 0 then 0 else timeout.





(** A script for examples: a timeout, a NOECHO command, a datagram from
    a peer, a PUBLISH of the empty payload. *)
Definition quiet_script : list poll_items :=
  [idle;
   command [encode "NOECHO"];
   {| pipe_in := None; udp_in := Some (Datagram (encode "HELLO") peer) |};
   command [encode "PUBLISH"; []]].


(** ** ZBeacon: shutdown *)

(** The frames of queued messages, in the order successive [recv()]
    calls return them. *)
Definition frames (msgs : list (list bytes)) : list bytes := List.concat msgs.

(** The loop of [ZBeacon.__del__], [while msg != b'OK': msg =
    self._pipe.recv()], on the frames still to come from the agent.
    It gives the frames left unread; [None] when the frames run out
    first, where [recv] blocks. *)
Fixpoint wait_for_ok (incoming : list bytes) : option (list bytes) :=
  match incoming with
  | [] => None
  | msg :: rest =>
    if bytes_eqb msg (encode "OK") then Some rest else wait_for_ok rest
  end.

(** [ZBeacon.__del__]: send [$TERM], wait for confirmation, log. *)
Definition __del__ (b : ZBeacon.t) (incoming : list bytes)
  : ZBeacon.t * option (list bytes) :=
  let b := ZBeacon.with_pipe (Pipe.send (encode "$TERM") (ZBeacon._pipe b)) b in
  match wait_for_ok incoming with
  | Some rest => (ZBeacon.debug "Terminating zbeacon" b, Some rest)
  | None => (b, None)
  end.

(** ** What the agent says on the control channel *)

(** A message of the agent's loop: the acknowledgment [OK], or a sender
    address with at most [BEACON_MAX] bytes of data. *)
Definition loop_message (msg : list bytes) : Prop :=
  msg = [encode "OK"] \/
  exists host data, msg = [host; data] /\ (List.length data <= BEACON_MAX)%nat.

(** Started with no frame pending, the computation [m] leaves no frame
    pending and only appends messages that satisfy [P]. *)
Definition speaks_only {A : Type} (P : list bytes -> Prop) (m : M A) : Prop :=
  forall s,
    Pipe.pending (_pipe (fst s)) = [] ->
    Pipe.pending (_pipe (fst (snd (m s)))) = [] /\
    exists msgs,
      delivered (snd (m s)) = delivered s ++ msgs /\ Forall P msgs.

(** The poll result brings the command [$TERM]. *)
Definition brings_term (items : poll_items) : bool :=
  match pipe_in items with
  | Some (cmd :: _) => is_cmd cmd "$TERM"
  | _ => false
  end.

(** ** Reading the interface scan *)

(** The interface the scan binds on entry [e], if it binds one: the
    entry has an address set with non-empty address and netmask which
    [ip_interface] parses to an address that is not loopback. *)
Definition usable (ip_interface : string -> option IPv4Interface)
           (e : interface_entry) : option IPv4Interface :=
  match snd e with
  | None | Some [] => None
  | Some sets =>
    match first_with_both sets with
    | (Some a, Some m) =>
      if not_str (Some a) || not_str (Some m) then None
      else match ip_interface (a ++ "/" ++ m)%string with
           | Some i => if is_loopback (ip i) then None else Some i
           | None => None
           end
    | _ => None
    end
  end.

(** The scan stops on entry [e] with [ValueError]: address and netmask
    are there and [ip_interface] rejects them. *)
Definition unparsable (ip_interface : string -> option IPv4Interface)
           (e : interface_entry) : bool :=
  match snd e with
  | None | Some [] => false
  | Some sets =>
    match first_with_both sets with
    | (Some a, Some m) =>
      negb (not_str (Some a) || not_str (Some m)) &&
      match ip_interface (a ++ "/" ++ m)%string with
      | Some _ => false
      | None => true
      end
    | _ => false
    end
  end.

(** A host with a loopback interface, an interface without IPv4
    address, and two Ethernet interfaces of which the first has the
    address 192.168.1.5/24. *)
Definition lan_host : list interface_entry :=
  [("lo"%string,
    Some [{| addr := Some "127.0.0.1"%string;
             netmask_str := Some "255.0.0.0"%string |}]);
   ("tun0"%string, None);
   ("eth0"%string,
    Some [{| addr := None; netmask_str := Some "255.255.255.0"%string |};
          {| addr := Some "192.168.1.5"%string;
             netmask_str := Some "255.255.255.0"%string |}]);
   ("eth1"%string,
    Some [{| addr := Some "10.0.0.7"%string;
             netmask_str := Some "255.0.0.0"%string |}])].

(** The host name [bind] gets in broadcast mode, by platform. *)
Definition broadcast_bind_host (platform : string) (broadcast : option IPv4Address)
  : string :=
  if startswith "win" platform || startswith "darwin" platform
     || startswith "freebsd" platform
  then ""%string else str_opt broadcast.

(** The command names [api_command] knows. *)
Definition known_commands : list string :=
  ["INTERVAL"; "NOECHO"; "PUBLISH"; "SILENCE"; "SUBSCRIBE"; "UNSUBSCRIBE";
   "$TERM"]%string.

Definition not_poll (e : event) : Prop :=
  match e with Poll _ => False | _ => True end.

(** 224.0.0.251, a multicast group. *)
Definition MDNS_GROUP : IPv4Address := 3758096635%Z.

(** An agent whose announce address is a multicast group and whose own
    address is 192.168.1.5. *)
Definition multicast_agent : ZBeaconAgent :=
  with_binding "eth0" {| ip := 3232235781%Z; netmask := 4294967040%Z |}
    (new_agent Pipe.empty 5670 MDNS_GROUP).

(** An agent bound to 192.168.1.5/24 with the default announce address. *)
Definition bound_agent : ZBeaconAgent :=
  with_binding "eth0" {| ip := 3232235781%Z; netmask := 4294967040%Z |}
    (new_agent Pipe.empty 5670 LIMITED_BROADCAST).

(** A host whose first interface after the loopback has an address that
    [ip_interface] rejects. *)
Definition broken_host : list interface_entry :=
  [("lo"%string,
    Some [{| addr := Some "127.0.0.1"%string;
             netmask_str := Some "255.0.0.0"%string |}]);
   ("eth0"%string,
    Some [{| addr := Some "300.1.1.1"%string;
             netmask_str := Some "255.255.255.0"%string |}])].

(** A script that ends with [$TERM] while a datagram is waiting. *)
Definition closing_script : list poll_items :=
  [command [encode "PUBLISH"; encode "A"];
   {| pipe_in := None; udp_in := Some (Datagram (encode "HELLO") peer) |};
   {| pipe_in := Some [encode "$TERM"];
      udp_in := Some (Datagram (encode "BYE") peer) |}].

(** ** Reading socket initialisation *)









(** * Properties *)

Close Scope Q_scope.

(** ** Byte strings *)

Lemma bytes_eqb_eq (x y : bytes) : bytes_eqb x y = true <-> x = y.
Proof.
  revert y; induction x as [|a x IH]; intros [|b y]; simpl; split;
    try congruence; try reflexivity.
  - intros H. apply andb_true_iff in H as [H1 H2].
    apply Byte.byte_dec_bl in H1. apply IH in H2. congruence.
  - intros H. injection H as -> ->. apply andb_true_iff; split.
    + now apply Byte.byte_dec_lb.
    + now apply IH.
Qed.

Lemma bytes_eqb_refl (x : bytes) : bytes_eqb x x = true.
Proof. now apply bytes_eqb_eq. Qed.

Lemma bytes_eqb_neq (x y : bytes) : bytes_eqb x y = false <-> x <> y.
Proof.
  split.
  - intros H E. apply bytes_eqb_eq in E. congruence.
  - intros H. destruct (bytes_eqb x y) eqn:E; [|reflexivity].
    apply bytes_eqb_eq in E. contradiction.
Qed.

Lemma starts_with_slice (F D : bytes) :
  starts_with F D <-> slice_to (List.length F) D = F.
Proof.
  unfold starts_with, slice_to. split.
  - intros [rest ->]. rewrite firstn_app, Nat.sub_diag, firstn_all. simpl.
    apply app_nil_r.
  - intros H. exists (skipn (List.length F) D).
    rewrite <- H at 1. symmetry. apply firstn_skipn.
Qed.

Lemma starts_with_length (F D : bytes) :
  starts_with F D -> List.length F <= List.length D.
Proof. intros [rest ->]. rewrite length_app. lia. Qed.

(** The filter test throws a beacon away exactly when a non-empty filter
    is set, the beacon is strictly longer and its prefix differs. *)
Lemma filter_mismatch_true (F D : bytes) :
  filter_mismatch (Some F) D = true <->
  F <> [] /\ List.length F < List.length D /\ ~ starts_with F D.
Proof.
  unfold filter_mismatch. rewrite starts_with_slice. destruct F as [|b F].
  - simpl. split; [discriminate | intros [H _]; congruence].
  - cbn [truthy]. destruct (Nat.ltb_spec (List.length (b :: F)) (List.length D)).
    + rewrite negb_true_iff, bytes_eqb_neq. split.
      * intros H1. repeat split; [discriminate | assumption | assumption].
      * now intros (_ & _ & H1).
    + split; [discriminate | intros (_ & H1 & _); lia].
Qed.

(** ** Command handling, one equation per command *)

Lemma api_subscribe a w F :
  api_command [encode "SUBSCRIBE"; F] (a, w) = (Ok tt, (with__filter (Some F) a, w)).
Proof. reflexivity. Qed.

Lemma api_unsubscribe a w :
  api_command [encode "UNSUBSCRIBE"] (a, w) = (Ok tt, (with_filter None a, w)).
Proof. reflexivity. Qed.

Lemma api_noecho a w :
  api_command [encode "NOECHO"] (a, w) = (Ok tt, (with_noecho true a, w)).
Proof. reflexivity. Qed.


Lemma api_term a w :
  api_command [encode "$TERM"] (a, w) =
  (Ok tt, (with_pipe (Pipe.send (encode "OK") (_pipe a)) (with_terminated true a), w)).
Proof. reflexivity. Qed.

Lemma api_publish a w p :
  api_command [encode "PUBLISH"; p] (a, w) =
  (Ok tt, (with_ping_at (clock w (ticks w)) (with_transmit (Some p) a), tick w)).
Proof. reflexivity. Qed.


(** ** The receive-and-filter cycle *)

(** What [recv] does with a datagram, by the two tests. *)
Lemma recv_datagram a w dgram addr :
  recv (Datagram dgram addr) (a, w) =
  let D := recvfrom BEACON_MAX dgram in
  if filter_mismatch (_filter a) D then
    (Ok tt, (a, emit (Log DEBUG "Received beacon doesn't match filter, discarding") w))
  else if _noecho a && eq_data (transmit a) D then (Ok tt, (a, w))
  else (Ok tt, (with_pipe (deliver (fst addr) D (_pipe a)) a, w)).
Proof.
  unfold recv. cbn -[recvfrom filter_mismatch eq_data encode].
  destruct (filter_mismatch _ _); [reflexivity|].
  destruct (_noecho a && _); reflexivity.
Qed.

Lemma recv_error a w :
  recv SocketError (a, w) =
  (Raise UnboundLocalError, (a, emit (Log EXCEPTION "Exception while receiving") w)).
Proof. reflexivity. Qed.

(** ** Filtering *)

(** Claim C1, at a concrete input: with the filter [ZRE] installed by
    SUBSCRIBE, the two-byte datagram [XY] does not start with the filter
    and is delivered all the same, because the prefix comparison is made
    only for data longer than the filter. *)
Lemma short_beacon_passes_filter :
  let F := encode "ZRE" in
  let D := encode "XY" in
  let s1 := snd (api_command [encode "SUBSCRIBE"; F] (fresh 0)) in
  F <> [] /\ ~ starts_with F D /\
  recvfrom BEACON_MAX D = D /\
  recv (Datagram D peer) s1 =
    (Ok tt, (with_pipe (deliver "10.0.0.2" D Pipe.empty) (fst s1), snd s1)) /\
  delivered (snd (recv (Datagram D peer) s1)) = [[encode "10.0.0.2"; D]].
Proof.
  cbv zeta. repeat split; try reflexivity.
  - discriminate.
  - intros [rest H]. discriminate H.
Qed.

(** Claim C1, amended: for a non-empty filter [F] installed by SUBSCRIBE
    and a received datagram [D], the cycle discards [D] when [D] is
    longer than [F] and does not start with [F]; it delivers [D] as a
    PeerAnnouncement, subject only to the echo check, when [D] starts
    with [F], and also when [D] is no longer than [F] (no comparison is
    made then). *)
Theorem subscribe_filter_cycle (a : ZBeaconAgent) (w : World)
        (F dgram : bytes) (addr : string * Z) :
  F <> [] ->
  let D := recvfrom BEACON_MAX dgram in
  let s1 := snd (api_command [encode "SUBSCRIBE"; F] (a, w)) in
  let r := recv (Datagram dgram addr) s1 in
  fst r = Ok tt /\
  (List.length F < List.length D -> ~ starts_with F D ->
   _pipe (fst (snd r)) = _pipe a) /\
  (starts_with F D \/ List.length D <= List.length F ->
   _pipe (fst (snd r)) =
     if _noecho a && eq_data (transmit a) D then _pipe a
     else deliver (fst addr) D (_pipe a)).
Proof.
  intros HF. cbv zeta. rewrite api_subscribe. cbn [snd].
  rewrite recv_datagram. cbv zeta. generalize (recvfrom BEACON_MAX dgram).
  intros D. cbn [_filter with__filter].
  destruct (filter_mismatch (Some F) D) eqn:E.
  - apply filter_mismatch_true in E as (_ & Hlen & Hns).
    cbn. repeat split; try reflexivity.
    intros [H | H]; [contradiction | lia].
  - assert (Hn : ~ (F <> [] /\ List.length F < List.length D /\ ~ starts_with F D)).
    { intros H. apply filter_mismatch_true in H. congruence. }
    cbn [transmit _noecho with__filter _pipe].
    destruct (_noecho a && eq_data (transmit a) D); cbn;
      (repeat split; try reflexivity; intros H1 H2; exfalso; apply Hn; auto).
Qed.

(** The amended C1 at filter [ZRE]: [XYZ1] is discarded, [ZRE1] is
    delivered. *)
Lemma subscribe_filter_cycle_witness :
  encode "ZRE" <> [] /\
  _pipe (fst (snd (recv (Datagram (encode "XYZ1") peer)
     (snd (api_command [encode "SUBSCRIBE"; encode "ZRE"] (fresh 0)))))) = Pipe.empty /\
  _pipe (fst (snd (recv (Datagram (encode "ZRE1") peer)
     (snd (api_command [encode "SUBSCRIBE"; encode "ZRE"] (fresh 0)))))) =
  deliver "10.0.0.2" (encode "ZRE1") Pipe.empty.
Proof.
  assert (H : encode "ZRE" <> []) by discriminate.
  split; [exact H|]. split.
  - apply (subscribe_filter_cycle (fst (fresh 0)) (snd (fresh 0))
             (encode "ZRE") (encode "XYZ1") peer H).
    + vm_compute. lia.
    + intros [rest E]. discriminate E.
  - apply (subscribe_filter_cycle (fst (fresh 0)) (snd (fresh 0))
             (encode "ZRE") (encode "ZRE1") peer H).
    left. exists (encode "1"). reflexivity.
Defined.

(** Claim C2, on the code: UNSUBSCRIBE binds the attribute [filter] and
    leaves [_filter], the one the receive cycle reads, as SUBSCRIBE set
    it.  So after SUBSCRIBE [ZRE] and UNSUBSCRIBE the datagram [XYZ1] is
    discarded exactly as before the UNSUBSCRIBE. *)
Theorem unsubscribe_leaves_filter_in_force :
  (forall a w F,
     let s2 := snd (api_command [encode "UNSUBSCRIBE"]
                      (snd (api_command [encode "SUBSCRIBE"; F] (a, w)))) in
     _filter (fst s2) = Some F /\ filter (fst s2) = Some None) /\
  let s1 := snd (api_command [encode "SUBSCRIBE"; encode "ZRE"] (fresh 0)) in
  let s2 := snd (api_command [encode "UNSUBSCRIBE"] s1) in
  delivered (snd (recv (Datagram (encode "XYZ1") peer) s1)) = [] /\
  delivered (snd (recv (Datagram (encode "XYZ1") peer) s2)) = [] /\
  trace (snd (snd (recv (Datagram (encode "XYZ1") peer) s2))) =
    [Log DEBUG "Received beacon doesn't match filter, discarding"].
Proof.
  split.
  - intros a w F. cbv zeta. rewrite api_subscribe. cbn [snd].
    rewrite api_unsubscribe. split; reflexivity.
  - cbv zeta. repeat split; reflexivity.
Qed.

(** ** Echo suppression *)

(** No command ever clears the echo-suppression flag. *)
Lemma noecho_one_way cmds a w :
  _noecho a = true -> _noecho (fst (snd (api_command cmds (a, w)))) = true.
Proof.
  intros H. unfold api_command, bind, pop0.
  destruct cmds as [|cmd cmds]; [exact H|].
  cbn -[utf8_valid is_cmd int_of_bytes encode].
  repeat match goal with
         | |- context [if ?c then _ else _] => destruct c
         | |- context [match ?l with [] => _ | _ :: _ => _ end] => destruct l
         | |- context [match int_of_bytes ?x with _ => _ end] =>
             destruct (int_of_bytes x)
         | _ => progress cbn -[utf8_valid is_cmd int_of_bytes encode]
         end; first [exact H | reflexivity].
Qed.

(** Claim C7, on the code: a freshly constructed agent has the
    echo-suppression flag set although it has received no NOECHO, so
    once a payload is published a received datagram equal to it is
    dropped by the echo check, not delivered; and the flag stays set
    whatever command comes. *)
Theorem echo_suppressed_by_default (pipe : Pipe.t) (port : Z)
        (ann : IPv4Address) (w : World) (dgram : bytes) (addr : string * Z) :
  let a0 := new_agent pipe port ann in
  let P := recvfrom BEACON_MAX dgram in
  let s1 := snd (api_command [encode "PUBLISH"; P] (a0, w)) in
  _noecho a0 = true /\
  _filter a0 = None /\
  recv (Datagram dgram addr) s1 = (Ok tt, s1) /\
  delivered (snd (recv (Datagram dgram addr) s1)) = Pipe.queue pipe /\
  (forall cmds, _noecho (fst (snd (api_command cmds (a0, w)))) = true).
Proof.
  cbv zeta. rewrite api_publish. cbn [snd]. rewrite recv_datagram.
  cbv zeta. cbn [_filter with_ping_at with_transmit new_agent filter_mismatch
                 _noecho transmit eq_data andb].
  rewrite bytes_eqb_refl. repeat split.
  intros cmds. now apply noecho_one_way.
Qed.

(** ** Receive errors *)

(** Claim C6, on the code: when [recvfrom] raises, the handler logs and
    falls through to [peername = addr[0]] with [addr] unbound; the
    cycle raises [UnboundLocalError], nothing is delivered, and the
    exception leaves [run]: no later poll result is handled. *)
Theorem recv_error_leaves_the_loop (a : ZBeaconAgent) (w : World)
        (rest : list poll_items) :
  let items := {| pipe_in := None; udp_in := Some SocketError |} in
  recv SocketError (a, w) =
    (Raise UnboundLocalError,
     (a, emit (Log EXCEPTION "Exception while receiving") w)) /\
  fst (run (items :: rest) (a, w)) = Raise UnboundLocalError /\
  run (items :: rest) (a, w) = run [items] (a, w) /\
  delivered (snd (run (items :: rest) (a, w))) = delivered (a, w).
Proof.
  cbv zeta. split; [reflexivity|].
  unfold run, iteration, wait_timeout, bind, self. cbn [fst snd pipe_in udp_in].
  destruct (truthy (transmit a)); cbn; repeat split; reflexivity.
Qed.

(** ** Size limit *)

(** SUBSCRIBE with a filter above [BEACON_MAX]: the facade logs and does
    not send the filter frame (the [SUBSCRIBE] frame stays pending). *)
Lemma subscribe_rejects_oversized (F : bytes) (b : ZBeacon.t) :
  BEACON_MAX < List.length F ->
  let b' := ZBeacon.subscribe F b in
  Pipe.queue (ZBeacon._pipe b') = Pipe.queue (ZBeacon._pipe b) /\
  ZBeacon.logged b' = ZBeacon.logged b ++ ["Filter size is too big"%string].
Proof.
  intros H. unfold ZBeacon.subscribe. cbn [ZBeacon.with_pipe ZBeacon._pipe].
  apply Nat.ltb_lt in H. rewrite H. split; reflexivity.
Qed.

(** Claim C3, on the code: [publish] has no size test.  Whatever the
    payload, the facade logs nothing and queues [PUBLISH] with the
    payload; at a payload of 256 bytes the agent stores it and sends it
    as one datagram of 256 bytes. *)
Theorem publish_forwards_oversized :
  (forall P b,
     ZBeacon.logged (ZBeacon.publish P b) = ZBeacon.logged b /\
     Pipe.queue (ZBeacon._pipe (ZBeacon.publish P b)) =
       Pipe.queue (ZBeacon._pipe b) ++
       [Pipe.pending (ZBeacon._pipe b) ++ [encode "PUBLISH"; P]]) /\
  BEACON_MAX < List.length oversized /\
  Pipe.queue (ZBeacon._pipe (ZBeacon.publish oversized facade0)) =
    [[encode "PUBLISH"; oversized]] /\
  transmit (fst (snd (api_command [encode "PUBLISH"; oversized] (fresh 0)))) =
    Some oversized /\
  sent_datagrams
    (trace (snd (snd (run [command [encode "PUBLISH"; oversized]] (fresh 0))))) =
    [oversized].
Proof.
  split; [|split; [|split; [|split]]].
  - intros P b. unfold ZBeacon.publish. cbn. rewrite <- app_assoc. split; reflexivity.
  - vm_compute. lia.
  - reflexivity.
  - reflexivity.
  - vm_compute. reflexivity.
Qed.

(** ** Frame rules for the monad *)

Section Frames.

Context {X : Type}.
Variable f : ZBeaconAgent -> X.

Lemma preserves_bind {A B} (m : M A) (k : A -> M B) :
  preserves f m -> (forall x, preserves f (k x)) -> preserves f (bind m k).
Proof.
  intros Hm Hk s. unfold bind. specialize (Hm s).
  destruct (m s) as [[x|e] s1]; cbn [fst snd] in *.
  - rewrite Hk. exact Hm.
  - exact Hm.
Qed.

Lemma preserves_try_except (body handler : M unit) (e : exn) :
  preserves f body -> preserves f handler ->
  preserves f (try_except body e handler).
Proof.
  intros Hb Hh s. unfold try_except. specialize (Hb s).
  destruct (body s) as [[x|e'] s1]; cbn [fst snd] in *.
  - exact Hb.
  - destruct (exn_eqb e e'); [rewrite Hh|]; exact Hb.
Qed.

Lemma preserves_ret {A} (x : A) : preserves f (ret x).
Proof. intros s. reflexivity. Qed.

Lemma preserves_raise {A} (e : exn) : preserves f (@raise A e).
Proof. intros s. reflexivity. Qed.

Lemma preserves_self : preserves f self.
Proof. intros s. reflexivity. Qed.

Lemma preserves_world : preserves f world.
Proof. intros s. reflexivity. Qed.

Lemma preserves_effect (e : event) : preserves f (effect e).
Proof. intros s. reflexivity. Qed.

Lemma preserves_time : preserves f time_time.
Proof. intros s. reflexivity. Qed.

Lemma preserves_udp_call (e : event) : preserves f (udp_call e).
Proof. intros s. unfold udp_call. destruct (sock_ok _ _); reflexivity. Qed.

Lemma preserves_assign (g : ZBeaconAgent -> ZBeaconAgent) :
  (forall a, f (g a) = f a) -> preserves f (assign g).
Proof. intros H s. apply H. Qed.

End Frames.

Section WorldFrames.

Context {X : Type}.
Variable f : World -> X.

Lemma wpreserves_bind {A B} (m : M A) (k : A -> M B) :
  wpreserves f m -> (forall x, wpreserves f (k x)) -> wpreserves f (bind m k).
Proof.
  intros Hm Hk s. unfold bind. specialize (Hm s).
  destruct (m s) as [[x|e] s1]; cbn [fst snd] in *.
  - rewrite Hk. exact Hm.
  - exact Hm.
Qed.

Lemma wpreserves_try_except (body handler : M unit) (e : exn) :
  wpreserves f body -> wpreserves f handler ->
  wpreserves f (try_except body e handler).
Proof.
  intros Hb Hh s. unfold try_except. specialize (Hb s).
  destruct (body s) as [[x|e'] s1]; cbn [fst snd] in *.
  - exact Hb.
  - destruct (exn_eqb e e'); [rewrite Hh|]; exact Hb.
Qed.

Lemma wpreserves_ret {A} (x : A) : wpreserves f (ret x).
Proof. intros s. reflexivity. Qed.

Lemma wpreserves_raise {A} (e : exn) : wpreserves f (@raise A e).
Proof. intros s. reflexivity. Qed.

Lemma wpreserves_self : wpreserves f self.
Proof. intros s. reflexivity. Qed.

Lemma wpreserves_world : wpreserves f world.
Proof. intros s. reflexivity. Qed.

Lemma wpreserves_assign (g : ZBeaconAgent -> ZBeaconAgent) :
  wpreserves f (assign g).
Proof. intros s. reflexivity. Qed.

Lemma wpreserves_effect (e : event) :
  (forall w, f (emit e w) = f w) -> wpreserves f (effect e).
Proof. intros H s. apply H. Qed.

Lemma wpreserves_time :
  (forall w, f (tick w) = f w) -> wpreserves f time_time.
Proof. intros H s. apply H. Qed.

Lemma wpreserves_udp_call (e : event) :
  (forall w, f (called (emit e w)) = f w) -> wpreserves f (udp_call e).
Proof.
  intros H s. unfold udp_call. destruct (sock_ok _ _); apply H.
Qed.

End WorldFrames.

Section Emits.

Variable P : event -> Prop.

Lemma emits_bind {A B} (m : M A) (k : A -> M B) :
  emits_only P m -> (forall x, emits_only P (k x)) -> emits_only P (bind m k).
Proof.
  intros Hm Hk s. unfold bind. destruct (Hm s) as (tr1 & E1 & F1).
  destruct (m s) as [[x|e] s1]; cbn [fst snd] in *.
  - destruct (Hk x s1) as (tr2 & E2 & F2). exists (tr1 ++ tr2).
    rewrite E2, E1, app_assoc. split; [reflexivity | now apply Forall_app].
  - now exists tr1.
Qed.

Lemma emits_try_except (body handler : M unit) (e : exn) :
  emits_only P body -> emits_only P handler ->
  emits_only P (try_except body e handler).
Proof.
  intros Hb Hh s. unfold try_except. destruct (Hb s) as (tr1 & E1 & F1).
  destruct (body s) as [[x|e'] s1]; cbn [fst snd] in *.
  - now exists tr1.
  - destruct (exn_eqb e e').
    + destruct (Hh s1) as (tr2 & E2 & F2). exists (tr1 ++ tr2).
      rewrite E2, E1, app_assoc. split; [reflexivity | now apply Forall_app].
    + now exists tr1.
Qed.

Lemma emits_nothing {A} (m : M A) :
  wpreserves trace m -> emits_only P m.
Proof.
  intros H s. exists []. rewrite app_nil_r. split; [apply H | constructor].
Qed.

Lemma emits_ret {A} (x : A) : emits_only P (ret x).
Proof. apply emits_nothing. intros s. reflexivity. Qed.

Lemma emits_raise {A} (e : exn) : emits_only P (@raise A e).
Proof. apply emits_nothing. intros s. reflexivity. Qed.

Lemma emits_self : emits_only P self.
Proof. apply emits_nothing. intros s. reflexivity. Qed.

Lemma emits_world : emits_only P world.
Proof. apply emits_nothing. intros s. reflexivity. Qed.

Lemma emits_time : emits_only P time_time.
Proof. apply emits_nothing. intros s. reflexivity. Qed.

Lemma emits_assign (g : ZBeaconAgent -> ZBeaconAgent) :
  emits_only P (assign g).
Proof. apply emits_nothing. intros s. reflexivity. Qed.

Lemma emits_effect (e : event) : P e -> emits_only P (effect e).
Proof.
  intros H s. exists [e]. split; [reflexivity | now repeat constructor].
Qed.

Lemma emits_udp_call (e : event) : P e -> emits_only P (udp_call e).
Proof.
  intros H s. exists [e]. unfold udp_call.
  destruct (sock_ok _ _); (split; [reflexivity | now repeat constructor]).
Qed.

End Emits.

(** Proves [preserves], [wpreserves] and [emits_only] goals by walking
    through the structure of the computation. *)
Ltac frame :=
  repeat first
    [ apply preserves_bind; [|intros ?]
    | apply preserves_try_except
    | apply preserves_ret | apply preserves_raise | apply preserves_self
    | apply preserves_world | apply preserves_effect | apply preserves_time
    | apply preserves_udp_call
    | apply preserves_assign; intros ?; reflexivity
    | apply wpreserves_bind; [|intros ?]
    | apply wpreserves_try_except
    | apply wpreserves_ret | apply wpreserves_raise | apply wpreserves_self
    | apply wpreserves_world | apply wpreserves_assign
    | apply wpreserves_effect; intros ?; reflexivity
    | apply wpreserves_time; intros ?; reflexivity
    | apply wpreserves_udp_call; intros ?; reflexivity
    | apply emits_bind; [|intros ?]
    | apply emits_try_except
    | apply emits_effect; exact I
    | apply emits_udp_call; exact I
    | apply emits_ret | apply emits_raise | apply emits_self
    | apply emits_world | apply emits_time | apply emits_assign
    | match goal with
      | |- preserves _ (if ?c then _ else _) => destruct c
      | |- preserves _ (match ?x with _ => _ end) => destruct x
      | |- wpreserves _ (if ?c then _ else _) => destruct c
      | |- wpreserves _ (match ?x with _ => _ end) => destruct x
      | |- emits_only _ (if ?c then _ else _) => destruct c
      | |- emits_only _ (match ?x with _ => _ end) => destruct x
      end ].

(** ** What the operations leave alone *)

Lemma init_socket_keeps_pipe : preserves _pipe _init_socket.
Proof. unfold _init_socket, setsockopt, bind_socket, logger. frame. Qed.

Lemma init_socket_keeps_terminated : preserves _terminated _init_socket.
Proof. unfold _init_socket, setsockopt, bind_socket, logger. frame. Qed.

Lemma init_socket_keeps_transmit : preserves transmit _init_socket.
Proof. unfold _init_socket, setsockopt, bind_socket, logger. frame. Qed.

Lemma init_socket_no_sendto : emits_only not_sendto _init_socket.
Proof. unfold _init_socket, setsockopt, bind_socket, logger. frame. Qed.

Lemma send_keeps_pipe : preserves _pipe send.
Proof. unfold send, sendto, logger. frame. Qed.

Lemma send_keeps_terminated : preserves _terminated send.
Proof. unfold send, sendto, logger. frame. Qed.

Lemma transmit_step_keeps_pipe : preserves _pipe transmit_step.
Proof. unfold transmit_step, as_float. frame. Qed.

Lemma transmit_step_keeps_terminated : preserves _terminated transmit_step.
Proof. unfold transmit_step, as_float. frame. Qed.

(** ** Stepping through the loop *)

Arguments recvfrom : simpl never.
Arguments encode : simpl never.

Lemma bind_ok {A B} (m : M A) (k : A -> M B) {s x s'} :
  m s = (Ok x, s') -> bind m k s = k x s'.
Proof. intros H. unfold bind. now rewrite H. Qed.

Lemma bind_raise {A B} (m : M A) (k : A -> M B) {s e s'} :
  m s = (Raise e, s') -> bind m k s = (Raise e, s').
Proof. intros H. unfold bind. now rewrite H. Qed.

(** One turn of [while(True)]: an exception leaves the loop, a set
    termination flag breaks out of it, otherwise the loop goes on. *)
Lemma run_cons items rest s :
  run (items :: rest) s =
  match iteration items s with
  | (Ok _, s') =>
    if _terminated (fst s') then
      (Ok Terminated,
       (fst s', emit (Log DEBUG "ZBeaconAgent terminated") (snd s')))
    else run rest s'
  | (Raise e, s') => (Raise e, s')
  end.
Proof.
  cbn [run]. unfold bind at 1.
  destruct (iteration items s) as [[x|e] s']; [|reflexivity].
  unfold bind, self. cbn [fst snd]. destruct (_terminated (fst s')); reflexivity.
Qed.

Lemma wait_timeout_returns a w :
  exists t w1,
    wait_timeout (a, w) = (Ok t, (a, w1)) /\
    (truthy (transmit a) = false -> t = (-1)%Q /\ w1 = w).
Proof.
  unfold wait_timeout, bind, self, time_time, ret. cbn [fst snd].
  destruct (truthy (transmit a)).
  - do 2 eexists. split; [reflexivity | discriminate].
  - do 2 eexists. split; [reflexivity | auto].
Qed.

(** The loop body, once the wait is over. *)
Lemma iteration_unfold items a w :
  exists t w1,
    wait_timeout (a, w) = (Ok t, (a, w1)) /\
    iteration items (a, w) =
      (match pipe_in items with
       | Some cmds => api_command cmds
       | None => ret tt
       end ;;
       match udp_in items with
       | Some o => recv o
       | None => ret tt
       end ;;
       transmit_step) (a, emit (Poll (t * 1000)%Q) w1).
Proof.
  destruct (wait_timeout_returns a w) as (t & w1 & E & _).
  exists t, w1. split; [exact E|].
  unfold iteration. rewrite (bind_ok _ _ E). reflexivity.
Qed.

(** ** Termination *)

(** Claim C8, at a concrete input: the control channel and the UDP
    socket are both readable in the iteration that handles [$TERM]; the
    acknowledgment is sent first and the PeerAnnouncement of that
    iteration's datagram follows it on the control channel. *)
Lemma announcement_follows_ack :
  let items := {| pipe_in := Some [encode "$TERM"];
                  udp_in := Some (Datagram (encode "HELLO") peer) |} in
  let r := run [items] (fresh 0) in
  fst r = Ok Terminated /\
  delivered (snd r) = [[encode "OK"]; [encode "10.0.0.2"; encode "HELLO"]] /\
  is_ack [encode "OK"] = true /\
  is_announcement [encode "10.0.0.2"; encode "HELLO"] = true.
Proof. cbv zeta. repeat split; reflexivity. Qed.

(** Claim C8, amended: the iteration that handles [$TERM] puts exactly
    one acknowledgment on the control channel, before anything else of
    that iteration; the loop is left at the end of that iteration (by
    [break], or by an exception of its receive or send step) and no
    later poll result is handled; after the acknowledgment at most one
    PeerAnnouncement is delivered, the one of the datagram read in that
    same iteration. *)
Theorem terminate_acknowledged (a : ZBeaconAgent) (w : World)
        (u : option recvfrom_outcome) (rest : list poll_items) :
  let items := {| pipe_in := Some [encode "$TERM"]; udp_in := u |} in
  let r := run (items :: rest) (a, w) in
  r = run [items] (a, w) /\
  (fst r = Ok Terminated \/ exists e, fst r = Raise e) /\
  exists anns,
    delivered (snd r) =
      delivered (a, w) ++ [Pipe.pending (_pipe a) ++ [encode "OK"]] ++ anns /\
    (anns = [] \/
     exists dgram addr,
       u = Some (Datagram dgram addr) /\
       anns = [[encode (fst addr); recvfrom BEACON_MAX dgram]]).
Proof.
  cbv zeta. rewrite !run_cons.
  destruct (iteration_unfold
              {| pipe_in := Some [encode "$TERM"]; udp_in := u |} a w)
    as (t & w1 & _ & E).
  cbn [pipe_in udp_in] in E. rewrite E. clear E.
  rewrite (bind_ok _ _ (api_term _ _)).
  set (a1 := with_pipe _ _).
  set (w2 := emit _ w1).
  assert (Hr : exists a2 res w3,
             (match u with Some o => recv o | None => ret tt end) (a1, w2)
             = (res, (a2, w3)) /\
             _terminated a2 = true /\
             exists anns,
               Pipe.queue (_pipe a2) =
                 Pipe.queue (_pipe a) ++
                 [Pipe.pending (_pipe a) ++ [encode "OK"]] ++ anns /\
               (anns = [] \/
                exists dgram addr,
                  u = Some (Datagram dgram addr) /\
                  anns = [[encode (fst addr); recvfrom BEACON_MAX dgram]])).
  { destruct u as [[dgram addr|]|].
    - rewrite recv_datagram. cbv zeta.
      destruct (filter_mismatch _ _); [|destruct (_ && _)];
        do 3 eexists; (split; [reflexivity|]); (split; [reflexivity|]).
      + exists []. cbn. auto.
      + exists []. cbn. auto.
      + exists [[encode (fst addr); recvfrom BEACON_MAX dgram]]. cbn.
        rewrite <- app_assoc. split; [reflexivity|]. right. eauto.
    - rewrite recv_error. do 3 eexists.
      split; [reflexivity|]. split; [reflexivity|]. exists []. cbn. auto.
    - do 3 eexists.
      split; [reflexivity|]. split; [reflexivity|]. exists []. cbn. auto. }
  destruct Hr as (a2 & res & w3 & E & Ht & anns & Hq & Ha).
  destruct res as [[]|e].
  - rewrite (bind_ok _ _ E).
    pose proof (transmit_step_keeps_pipe (a2, w3)) as K1.
    pose proof (transmit_step_keeps_terminated (a2, w3)) as K2.
    destruct (transmit_step (a2, w3)) as [[[]|e] [a3 w4]]; cbn [fst snd] in *.
    + rewrite K2, Ht. cbn. split; [reflexivity|]. split; [now left|].
      exists anns. unfold delivered. cbn. rewrite K1. auto.
    + split; [reflexivity|]. split; [right; eauto|].
      exists anns. unfold delivered. cbn. rewrite K1. auto.
  - rewrite (bind_raise _ _ E).
    cbn. split; [reflexivity|]. split; [right; eauto|].
    exists anns. unfold delivered. cbn. auto.
Qed.

(** ** Send with recovery *)




(** With an announce address set, [_init_socket] returns normally: it
    starts with a [setsockopt], sends nothing, and leaves the payload,
    the port and the oracles alone. *)
Lemma init_socket_returns a w ann :
  announce_address a = Some ann ->
  exists a' w' l o tr,
    _init_socket (a, w) = (Ok tt, (a', w')) /\
    transmit a' = transmit a /\ _port a' = _port a /\
    _interval a' = _interval a /\ _ping_at a' = _ping_at a /\
    sock_ok w' = sock_ok w /\ clock w' = clock w /\ ticks w' = ticks w /\
    calls w < calls w' /\
    trace w' = trace w ++ SetSockOpt l o :: tr /\
    sent_datagrams tr = [].
Proof.
  intros H. unfold _init_socket, try_except, bind, self, world, setsockopt,
    bind_socket, udp_call, logger, effect, assign, ret, raise.
  cbn [fst snd]. rewrite H.
  destruct (is_multicast ann).
  - cbn [fst snd called emit calls sock_ok exn_eqb].
    repeat match goal with
    | |- context [if sock_ok w ?k then _ else _] => destruct (sock_ok w k)
    | _ => progress cbn [fst snd called emit calls sock_ok exn_eqb]
    end.
    all: do 5 eexists; (split; [reflexivity|]); cbn;
      repeat rewrite <- app_assoc; cbn;
      repeat (split; [first [reflexivity | lia]|]); reflexivity.
  - cbn [fst snd called emit calls sock_ok exn_eqb has_reuseport platform].
    repeat match goal with
    | |- context [if sock_ok w ?k then _ else _] => destruct (sock_ok w k)
    | |- context [if has_reuseport w then _ else _] => destruct (has_reuseport w)
    | |- context [if startswith ?p ?s then _ else _] => destruct (startswith p s)
    | |- context [if ?a || ?b then _ else _] => destruct (a || b)
    | _ => progress cbn [fst snd called emit calls sock_ok exn_eqb
                          has_reuseport platform]
    end.
    all: do 5 eexists; (split; [reflexivity|]); cbn;
      repeat rewrite <- app_assoc; cbn;
      repeat (split; [first [reflexivity | lia]|]); reflexivity.
Qed.















Lemma wait_timeout_publishing a w :
  truthy (transmit a) = true ->
  wait_timeout (a, w) =
  (Ok (timeout_until (_ping_at a) (clock w (ticks w))), (a, tick w)).
Proof.
  intros H. unfold wait_timeout, bind, self, time_time. cbn [fst snd].
  rewrite H. reflexivity.
Qed.

Lemma wait_timeout_silent a w :
  truthy (transmit a) = false -> wait_timeout (a, w) = (Ok (-1)%Q, (a, w)).
Proof.
  intros H. unfold wait_timeout, bind, self. cbn [fst snd]. now rewrite H.
Qed.





(** ** Construction *)

Lemma emit_all_emit e tr w : emit e (emit_all tr w) = emit_all (tr ++ [e]) w.
Proof. unfold emit, emit_all. cbn. now rewrite app_assoc. Qed.

Lemma emit_all_nil_emit e w : emit e w = emit_all [e] w.
Proof. reflexivity. Qed.

(** When every entry is passed over, the scan only logs. *)
Lemma scan_binds_nothing ip_interface interfaces a w :
  forallb (passed_over ip_interface) interfaces = true ->
  exists tr,
    scan_interfaces ip_interface interfaces (a, w) = (Ok tt, (a, emit_all tr w)) /\
    Forall is_log tr.
Proof.
  revert w. induction interfaces as [|[name settings] rest IH]; intros w H.
  - exists []. split; [|constructor]. unfold emit_all. rewrite app_nil_r.
    destruct w; reflexivity.
  - cbn [forallb] in H. apply andb_true_iff in H as [H1 H2].
    cbn [scan_interfaces]. unfold logger at 1.
    rewrite (bind_ok _ _ (s' := (a, emit_all [Log DEBUG "Checking out interface {0}."] w)) (x := tt)) by reflexivity.
    set (w1 := emit_all _ w).
    assert (Hskip : forall msg,
               exists tr, (logger DEBUG msg ;; scan_interfaces ip_interface rest) (a, w1)
                          = (Ok tt, (a, emit_all tr w)) /\ Forall is_log tr).
    { intros msg. unfold logger.
      rewrite (bind_ok _ _ (s' := (a, emit (Log DEBUG msg) w1)) (x := tt)) by reflexivity.
      destruct (IH (emit (Log DEBUG msg) w1) H2) as (tr & E & F).
      exists ([Log DEBUG "Checking out interface {0}."; Log DEBUG msg] ++ tr)%list.
      split.
      - rewrite E. subst w1. unfold emit, emit_all. cbn. now rewrite <- !app_assoc.
      - apply Forall_app; split; [repeat constructor | exact F]. }
    unfold passed_over in H1. cbn [snd] in H1.
    destruct settings as [[|s sets]|]; try apply Hskip.
    destruct (first_with_both (s :: sets)) as [[a0|] [m0|]] eqn:Ef.
    + destruct (not_str (Some a0) || not_str (Some m0)) eqn:En; [apply Hskip|].
      cbn [orb] in H1.
      destruct (ip_interface (a0 ++ "/" ++ m0)%string) as [i|]; [|discriminate].
      rewrite H1. apply Hskip.
    + rewrite orb_true_r. apply Hskip.
    + apply Hskip.
    + apply Hskip.
Qed.

Lemma init_socket_keeps_address : preserves address _init_socket.
Proof. unfold _init_socket, setsockopt, bind_socket, logger. frame. Qed.

(** Claim C5, on the code: when the scan passes over every interface,
    construction does not stop.  It logs the error, runs socket
    initialisation, reports the string [None] as its address, which the
    facade takes as host name, and enters the event loop. *)
Theorem startup_without_interface (ip_interface : string -> option IPv4Interface)
        (port : Z) (ann : IPv4Address) (interfaces : list interface_entry)
        (script : list poll_items) (w : World) :
  forallb (passed_over ip_interface) interfaces = true ->
  exists s2 tr_scan l o tr_sock,
    __init__ ip_interface Pipe.empty port ann interfaces script w = run script s2 /\
    address (fst s2) = None /\
    delivered s2 = [[encode "None"]] /\
    ZBeacon.recv_hostname (_pipe (fst s2)) = Some (encode "None") /\
    Forall is_log tr_scan /\
    trace (snd s2) =
      trace w ++ tr_scan ++
      Log ERROR "No suitable interface found." :: SetSockOpt l o :: tr_sock.
Proof.
  intros H. unfold __init__, init_body.
  set (a0 := new_agent Pipe.empty port ann).
  unfold logger at 1.
  rewrite (bind_ok _ _ (s' := (a0, emit (Log DEBUG "Available interfaces: {0}") w)) (x := tt))
    by reflexivity.
  destruct (scan_binds_nothing ip_interface interfaces a0
              (emit (Log DEBUG "Available interfaces: {0}") w) H) as (tr & E & F).
  rewrite (bind_ok _ _ E).
  unfold logger at 1.
  rewrite (bind_ok _ _ (s' := (a0, emit (Log DEBUG "Finished scanning interfaces.") (emit_all tr (emit (Log DEBUG "Available interfaces: {0}") w)))) (x := tt))
    by reflexivity.
  set (w1 := emit _ (emit_all tr _)).
  rewrite (bind_ok _ _ (s' := (a0, w1)) (x := a0)) by reflexivity.
  cbn [address a0 new_agent]. unfold logger at 1.
  rewrite (bind_ok _ _ (s' := (a0, emit (Log ERROR "No suitable interface found.") w1)) (x := tt))
    by reflexivity.
  destruct (init_socket_returns a0 (emit (Log ERROR "No suitable interface found.") w1) ann eq_refl)
    as (a' & w' & l & o & trs & Ei & _ & _ & _ & _ & _ & _ & _ & _ & Htr & _).
  pose proof (init_socket_keeps_pipe (a0, emit (Log ERROR "No suitable interface found.") w1)) as Kp.
  pose proof (init_socket_keeps_address (a0, emit (Log ERROR "No suitable interface found.") w1)) as Ka.
  rewrite Ei in Kp, Ka. cbn [fst snd] in Kp, Ka.
  rewrite (bind_ok _ _ Ei).
  rewrite (bind_ok _ _ (s' := (a', w')) (x := a')) by reflexivity.
  rewrite Ka. cbn [address a0 new_agent str_opt].
  rewrite (bind_ok _ _ (s' := (with_pipe (Pipe.send (encode "None") (_pipe a')) a', w')) (x := tt))
    by reflexivity.
  exists (with_pipe (Pipe.send (encode "None") (_pipe a')) a', w'),
    (Log DEBUG "Available interfaces: {0}" :: tr ++ [Log DEBUG "Finished scanning interfaces."])%list,
    l, o, trs.
  split; [reflexivity|].
  split; [exact Ka|].
  split; [unfold delivered; cbn; rewrite Kp; reflexivity|].
  split; [cbn; rewrite Kp; reflexivity|].
  split.
  - constructor; [exact I|]. apply Forall_app. split; [exact F | repeat constructor].
  - cbn [snd]. rewrite Htr. subst w1. cbn [trace emit emit_all].
    rewrite <- !app_assoc. cbn. rewrite <- !app_assoc. reflexivity.
Qed.

(** Claim C5 at a host that has only the loopback interface. *)
Lemma startup_without_interface_witness :
  forallb (passed_over demo_ip_interface) loopback_only = true /\
  exists s2,
    __init__ demo_ip_interface Pipe.empty 5670 LIMITED_BROADCAST loopback_only
             [] (calm_world 0) = (Ok Polling, s2) /\
    ZBeacon.recv_hostname (_pipe (fst s2)) = Some (encode "None").
Proof.
  assert (H : forallb (passed_over demo_ip_interface) loopback_only = true)
    by reflexivity.
  split; [exact H|].
  destruct (startup_without_interface demo_ip_interface 5670 LIMITED_BROADCAST
              loopback_only [] (calm_world 0) H)
    as (s2 & tr & l & o & trs & E & _ & _ & Hh & _).
  exists s2. split; [exact E | exact Hh].
Defined.

(** ** Silence *)






Lemma poll_forever : waits_indefinitely ((-1) * 1000)%Q.
Proof. unfold waits_indefinitely. reflexivity. Qed.










(** ** Scheduling *)

(** The wait computation reads the clock at most once and touches
    nothing else. *)
Lemma wait_timeout_world a w :
  exists t w1,
    wait_timeout (a, w) = (Ok t, (a, w1)) /\
    clock w1 = clock w /\ sock_ok w1 = sock_ok w /\ calls w1 = calls w /\
    trace w1 = trace w /\
    (truthy (transmit a) = true ->
     t = timeout_until (_ping_at a) (clock w (ticks w)) /\ ticks w1 = S (ticks w)) /\
    (truthy (transmit a) = false -> t = (-1)%Q /\ ticks w1 = ticks w).
Proof.
  destruct (truthy (transmit a)) eqn:H.
  - rewrite (wait_timeout_publishing a w H). do 2 eexists.
    split; [reflexivity|]. cbn. repeat split; auto; discriminate.
  - rewrite (wait_timeout_silent a w H). do 2 eexists.
    split; [reflexivity|]. cbn. repeat split; auto; discriminate.
Qed.




Lemma iteration_command cmds a w :
  exists t w1,
    clock w1 = clock w /\ sock_ok w1 = sock_ok w /\ trace w1 = trace w /\
    iteration (command cmds) (a, w) =
      (api_command cmds ;; transmit_step) (a, emit (Poll (t * 1000)%Q) w1).
Proof.
  destruct (wait_timeout_world a w) as (t & w1 & E & Hc & Hs & _ & Ht & _).
  exists t, w1. repeat (split; [assumption|]).
  unfold iteration. rewrite (bind_ok _ _ E). reflexivity.
Qed.




(** *** Rounding to double precision *)

Section DoubleRounding.

Open Scope Z_scope.











End DoubleRounding.






(** * Further properties of the facade and the agent *)

(** ** The agent's side of the control channel *)

Section Speaks.

Variable P : list bytes -> Prop.

Lemma speaks_bind {A B} (m : M A) (k : A -> M B) :
  speaks_only P m -> (forall x, speaks_only P (k x)) -> speaks_only P (bind m k).
Proof.
  intros Hm Hk s Hs. unfold bind. destruct (Hm s Hs) as (H1 & msgs1 & E1 & F1).
  destruct (m s) as [[x|e] s1]; cbn [fst snd] in *.
  - destruct (Hk x s1 H1) as (H2 & msgs2 & E2 & F2). split; [exact H2|].
    exists (msgs1 ++ msgs2). rewrite E2, E1, app_assoc.
    split; [reflexivity | now apply Forall_app].
  - split; [exact H1|]. now exists msgs1.
Qed.

Lemma speaks_silent {A} (m : M A) : preserves _pipe m -> speaks_only P m.
Proof.
  intros H s Hs. unfold delivered. rewrite (H s). split; [exact Hs|].
  exists []. rewrite app_nil_r. split; [reflexivity | constructor].
Qed.

Lemma speaks_pipe_send (frame : bytes) :
  P [frame] -> speaks_only P (pipe_send frame).
Proof.
  intros H [a w] Hs. cbn in *. rewrite Hs. split; [reflexivity|].
  exists [[frame]]. split; [reflexivity | now repeat constructor].
Qed.

End Speaks.

Lemma recvfrom_length n dgram : List.length (recvfrom n dgram) <= n.
Proof. apply firstn_le_length. Qed.

Lemma api_command_speaks cmds : speaks_only loop_message (api_command cmds).
Proof.
  unfold api_command, pop0, logger.
  repeat first
    [ apply speaks_bind; [|intros ?]
    | progress cbv zeta
    | apply speaks_pipe_send; left; reflexivity
    | apply speaks_silent; solve [frame]
    | match goal with
      | |- speaks_only _ (if ?c then _ else _) => destruct c
      | |- speaks_only _ (match ?x with _ => _ end) => destruct x
      end ].
Qed.

Lemma recv_speaks o : speaks_only loop_message (recv o).
Proof.
  intros [a w] Hs. cbn [fst snd] in Hs. destruct o as [dgram addr|].
  - rewrite recv_datagram. cbv zeta.
    destruct (filter_mismatch _ _); [|destruct (_ && _)]; cbn [fst snd].
    + split; [exact Hs|]. exists []. unfold delivered. cbn. now rewrite app_nil_r.
    + split; [exact Hs|]. exists []. unfold delivered. cbn. now rewrite app_nil_r.
    + split; [reflexivity|].
      exists [[encode (fst addr); recvfrom BEACON_MAX dgram]].
      unfold delivered. cbn. rewrite Hs. split; [reflexivity|].
      constructor; [|constructor]. right. do 2 eexists.
      split; [reflexivity|]. apply recvfrom_length.
  - rewrite recv_error. cbn [fst snd]. split; [exact Hs|].
    exists []. unfold delivered. cbn. now rewrite app_nil_r.
Qed.

Lemma wait_timeout_keeps_pipe : preserves _pipe wait_timeout.
Proof. unfold wait_timeout. frame. Qed.

Lemma iteration_speaks items : speaks_only loop_message (iteration items).
Proof.
  unfold iteration.
  apply speaks_bind; [apply speaks_silent, wait_timeout_keeps_pipe | intros t].
  apply speaks_bind; [apply speaks_silent; frame | intros _].
  apply speaks_bind; [|intros _].
  { destruct (pipe_in items); [apply api_command_speaks | apply speaks_silent; frame]. }
  apply speaks_bind; [|intros _].
  { destruct (udp_in items); [apply recv_speaks | apply speaks_silent; frame]. }
  apply speaks_silent, transmit_step_keeps_pipe.
Qed.

Lemma run_speaks script : speaks_only loop_message (run script).
Proof.
  induction script as [|items script IH].
  - apply speaks_silent. cbn [run]. frame.
  - cbn [run]. apply speaks_bind; [apply iteration_speaks | intros _].
    apply speaks_bind; [apply speaks_silent; frame | intros a].
    destruct (_terminated a); [|exact IH].
    apply speaks_silent. unfold logger. frame.
Qed.

(** X10: started with no frame pending on the control channel, [run]
    only appends complete messages, and each is the acknowledgment [OK]
    or a PeerAnnouncement of a sender address with at most [BEACON_MAX]
    bytes of data; messages already queued stay as they are. *)
Theorem loop_speaks_acks_and_announcements (script : list poll_items) (s : State) :
  Pipe.pending (_pipe (fst s)) = [] ->
  let s' := snd (run script s) in
  Pipe.pending (_pipe (fst s')) = [] /\
  exists msgs,
    delivered s' = delivered s ++ msgs /\
    Forall loop_message msgs.
Proof. intros H. exact (run_speaks script s H). Qed.

(** X10 on a fresh agent and a script that ends with [$TERM]. *)
Lemma loop_speaks_acks_and_announcements_witness :
  Pipe.pending (_pipe (fst (fresh 0))) = [] /\
  Forall loop_message (delivered (snd (run closing_script (fresh 0)))).
Proof.
  split; [reflexivity|].
  destruct (loop_speaks_acks_and_announcements closing_script (fresh 0) eq_refl)
    as (_ & msgs & E & F).
  rewrite E. exact F.
Defined.


(** ** Shutdown *)

Lemma wait_for_ok_none (incoming : list bytes) :
  ~ In (encode "OK") incoming -> wait_for_ok incoming = None.
Proof.
  induction incoming as [|f rest IH]; intros H; [reflexivity|].
  cbn [wait_for_ok]. destruct (bytes_eqb f (encode "OK")) eqn:E.
  - apply bytes_eqb_eq in E. exfalso. apply H. now left.
  - apply IH. intros H'. apply H. now right.
Qed.

Lemma wait_for_ok_app (pre post : list bytes) :
  ~ In (encode "OK") pre ->
  wait_for_ok (pre ++ encode "OK" :: post) = Some post.
Proof.
  induction pre as [|f rest IH]; intros H.
  - cbn [app wait_for_ok]. now rewrite bytes_eqb_refl.
  - cbn [app wait_for_ok]. destruct (bytes_eqb f (encode "OK")) eqn:E.
    + apply bytes_eqb_eq in E. exfalso. apply H. now left.
    + apply IH. intros H'. apply H. now right.
Qed.

Lemma wait_for_ok_some (incoming : list bytes) :
  In (encode "OK") incoming -> exists unread, wait_for_ok incoming = Some unread.
Proof.
  induction incoming as [|f rest IH]; intros H; [contradiction|].
  cbn [wait_for_ok]. destruct (bytes_eqb f (encode "OK")) eqn:E; [eauto|].
  destruct H as [H|H]; [|auto].
  subst f. rewrite bytes_eqb_refl in E. discriminate.
Qed.

(** X12: the wait of [ZBeacon.__del__] throws away every frame before
    the first frame equal to [OK], returns there, logs and leaves the
    later frames unread; when no frame equals [OK] it never returns and
    logs nothing. *)
Theorem stop_reads_up_to_first_ok (b : ZBeacon.t) (pre post : list bytes) :
  ~ In (encode "OK") pre ->
  snd (__del__ b pre) = None /\
  ZBeacon.logged (fst (__del__ b pre)) = ZBeacon.logged b /\
  snd (__del__ b (pre ++ encode "OK" :: post)) = Some post /\
  ZBeacon.logged (fst (__del__ b (pre ++ encode "OK" :: post))) =
    ZBeacon.logged b ++ ["Terminating zbeacon"%string].
Proof.
  intros H. unfold __del__.
  rewrite (wait_for_ok_none pre H), (wait_for_ok_app pre post H).
  repeat split.
Qed.

(** X12 on an announcement, the acknowledgment, another announcement. *)
Lemma stop_reads_up_to_first_ok_witness :
  ~ In (encode "OK") [encode "10.0.0.2"; encode "HELLO"] /\
  snd (__del__ facade0
         ([encode "10.0.0.2"; encode "HELLO"] ++
          encode "OK" :: [encode "10.0.0.2"; encode "BYE"])) =
    Some [encode "10.0.0.2"; encode "BYE"].
Proof.
  assert (H : ~ In (encode "OK") [encode "10.0.0.2"; encode "HELLO"]).
  { intros [H|[H|[]]]; discriminate H. }
  split; [exact H|].
  destruct (stop_reads_up_to_first_ok facade0 _
              [encode "10.0.0.2"; encode "BYE"] H) as (_ & _ & E & _).
  exact E.
Defined.


Lemma terminate_delivers_ack a w u rest :
  Pipe.pending (_pipe a) = [] ->
  exists more,
    delivered (snd (run ({| pipe_in := Some [encode "$TERM"]; udp_in := u |} :: rest)
                        (a, w))) =
    delivered (a, w) ++ [encode "OK"] :: more.
Proof.
  intros Hp. rewrite run_cons.
  destruct (iteration_unfold
              {| pipe_in := Some [encode "$TERM"]; udp_in := u |} a w)
    as (t & w1 & _ & E).
  cbn [pipe_in udp_in] in E. rewrite E. clear E.
  rewrite (bind_ok _ _ (api_term _ _)).
  set (a1 := with_pipe _ _). set (w2 := emit _ w1).
  set (m := (match u with Some o => recv o | None => ret tt end ;; transmit_step)).
  assert (S : speaks_only loop_message m).
  { subst m. apply speaks_bind; [|intros _].
    - destruct u; [apply recv_speaks | apply speaks_silent; frame].
    - apply speaks_silent, transmit_step_keeps_pipe. }
  destruct (S (a1, w2) eq_refl) as (Hp1 & msgs & E1 & _).
  assert (E0 : delivered (a1, w2) = delivered (a, w) ++ [[encode "OK"]]).
  { unfold delivered. cbn. now rewrite Hp. }
  rewrite E0, <- app_assoc in E1. cbn [app] in E1.
  destruct (m (a1, w2)) as [[[]|e] s1]; cbn [fst snd] in *.
  - destruct (_terminated (fst s1)).
    + exists msgs. exact E1.
    + destruct (run_speaks rest s1 Hp1) as (_ & msgs' & E2 & _).
      exists (msgs ++ msgs'). rewrite E2, E1, <- app_assoc. reflexivity.
  - exists msgs. exact E1.
Qed.

(** X13: the shutdown handshake resolves when no frame is pending at
    either end of the control channel.  On a facade with no frame
    pending (no oversized [subscribe] went before),
    [ZBeacon.__del__] queues the one-frame message [$TERM]; once an
    agent with no frame pending has handled that message in an
    iteration of its loop, the frames the facade has still to read
    contain [OK], so the facade's wait returns, whatever the facade had
    left unread and whatever else that iteration delivers. *)
Theorem stop_handshake_resolves (b : ZBeacon.t) (a : ZBeaconAgent) (w : World)
        (u : option recvfrom_outcome) (rest : list poll_items)
        (unread : list (list bytes)) :
  Pipe.pending (ZBeacon._pipe b) = [] ->
  Pipe.pending (_pipe a) = [] ->
  let items := {| pipe_in := Some [encode "$TERM"]; udp_in := u |} in
  exists new,
    delivered (snd (run (items :: rest) (a, w))) = delivered (a, w) ++ new /\
    Pipe.queue (ZBeacon._pipe (fst (__del__ b (frames (unread ++ new))))) =
      Pipe.queue (ZBeacon._pipe b) ++ [[encode "$TERM"]] /\
    exists left_over,
      snd (__del__ b (frames (unread ++ new))) = Some left_over.
Proof.
  intros Hb Ha items.
  destruct (terminate_delivers_ack a w u rest Ha) as (more & E).
  exists ([encode "OK"] :: more). split; [exact E|].
  assert (Hin : In (encode "OK") (frames (unread ++ [encode "OK"] :: more))).
  { unfold frames. apply in_concat. exists [encode "OK"].
    split; [apply in_or_app; right; now left | now left]. }
  destruct (wait_for_ok_some _ Hin) as (left_over & Hw).
  unfold __del__. rewrite Hw. cbn. rewrite Hb. split; [reflexivity | eauto].
Qed.

(** X13 on a fresh agent with a datagram waiting beside [$TERM]. *)
Lemma stop_handshake_resolves_witness :
  Pipe.pending (ZBeacon._pipe facade0) = [] /\
  Pipe.pending (_pipe (fst (fresh 0))) = [] /\
  exists new left_over,
    delivered (snd (run [{| pipe_in := Some [encode "$TERM"];
                            udp_in := Some (Datagram (encode "BYE") peer) |}]
                        (fresh 0))) = new /\
    snd (__del__ facade0 (frames new)) = Some left_over.
Proof.
  split; [reflexivity|]. split; [reflexivity|].
  destruct (stop_handshake_resolves facade0 (fst (fresh 0)) (snd (fresh 0))
              (Some (Datagram (encode "BYE") peer)) [] [] eq_refl eq_refl)
    as (new & E & _ & left_over & Hl).
  exists new, left_over. split; [exact E | exact Hl].
Defined.


Lemma iteration_idle_keeps_pipe : preserves _pipe (iteration idle).
Proof.
  unfold iteration, idle. cbn [pipe_in udp_in].
  apply preserves_bind; [apply wait_timeout_keeps_pipe | intros t].
  apply preserves_bind; [apply preserves_effect | intros _].
  do 2 (apply preserves_bind; [apply preserves_ret | intros _]).
  apply transmit_step_keeps_pipe.
Qed.

Lemma run_idle_keeps_pipe n : preserves _pipe (run (repeat idle n)).
Proof.
  induction n as [|n IH]; intros s; [reflexivity|].
  cbn [repeat]. rewrite run_cons.
  pose proof (iteration_idle_keeps_pipe s) as K.
  destruct (iteration idle s) as [[[]|e] s1]; cbn [fst snd] in *; [|exact K].
  destruct (_terminated (fst s1)); [exact K|].
  rewrite IH. exact K.
Qed.

(** X19: shutdown after an oversized [subscribe] gets no answer.  The
    frame [SUBSCRIBE] that [subscribe] left pending is closed by the
    [$TERM] of [ZBeacon.__del__]: the agent gets the one message
    [SUBSCRIBE, $TERM], installs the bytes [$TERM] as filter, leaves its
    termination flag alone and sends no [OK]; through any number of
    later iterations with nothing readable it puts nothing on the
    control channel.  If none of the frames the agent has sent so far
    is [OK], the facade's wait finds none and does not return. *)
Theorem oversized_subscribe_blocks_shutdown
        (F : bytes) (b : ZBeacon.t) (a : ZBeaconAgent) (w : World) (n : nat) :
  BEACON_MAX < List.length F ->
  Pipe.pending (ZBeacon._pipe b) = [] ->
  ~ In (encode "OK") (frames (delivered (a, w))) ->
  let msg := [encode "SUBSCRIBE"; encode "$TERM"] in
  let after := snd (run (command msg :: repeat idle n) (a, w)) in
  let stop := __del__ (ZBeacon.subscribe F b) (frames (delivered after)) in
  Pipe.queue (ZBeacon._pipe (fst stop)) = Pipe.queue (ZBeacon._pipe b) ++ [msg] /\
  api_command msg (a, w) = (Ok tt, (with__filter (Some (encode "$TERM")) a, w)) /\
  delivered after = delivered (a, w) /\
  snd stop = None.
Proof.
  intros HF Hb Hin. cbv zeta. apply Nat.ltb_lt in HF.
  assert (Hd : delivered (snd (run (command [encode "SUBSCRIBE"; encode "$TERM"]
                                     :: repeat idle n) (a, w))) = delivered (a, w)).
  { unfold delivered. rewrite run_cons.
    destruct (iteration_command [encode "SUBSCRIBE"; encode "$TERM"] a w)
      as (t & w1 & _ & _ & _ & E).
    rewrite E.
    assert (Ea : api_command [encode "SUBSCRIBE"; encode "$TERM"]
                   (a, emit (Poll (t * 1000)%Q) w1) =
                 (Ok tt, (with__filter (Some (encode "$TERM")) a,
                          emit (Poll (t * 1000)%Q) w1))) by reflexivity.
    rewrite (bind_ok _ _ Ea).
    pose proof (transmit_step_keeps_pipe
                  (with__filter (Some (encode "$TERM")) a,
                   emit (Poll (t * 1000)%Q) w1)) as K.
    destruct (transmit_step _) as [[[]|e] s1]; cbn [fst snd] in *;
      [|now rewrite K].
    destruct (_terminated (fst s1)); cbn [fst snd]; [now rewrite K|].
    rewrite run_idle_keeps_pipe. now rewrite K. }
  rewrite Hd.
  split; [|split; [reflexivity|split; [reflexivity|]]].
  - unfold __del__, ZBeacon.subscribe. rewrite HF, (wait_for_ok_none _ Hin).
    cbn. rewrite Hb. reflexivity.
  - unfold __del__. now rewrite (wait_for_ok_none _ Hin).
Qed.

(** X19 with a filter of 256 bytes, on a fresh agent and through three
    idle iterations. *)
Lemma oversized_subscribe_blocks_shutdown_witness :
  BEACON_MAX < List.length oversized /\
  Pipe.pending (ZBeacon._pipe facade0) = [] /\
  ~ In (encode "OK") (frames (delivered (fresh 0))) /\
  let after :=
    snd (run (command [encode "SUBSCRIBE"; encode "$TERM"] :: repeat idle 3)
             (fresh 0)) in
  let stop := __del__ (ZBeacon.subscribe oversized facade0)
                      (frames (delivered after)) in
  Pipe.queue (ZBeacon._pipe (fst stop)) = [[encode "SUBSCRIBE"; encode "$TERM"]] /\
  snd stop = None.
Proof.
  assert (H : BEACON_MAX < List.length oversized) by (vm_compute; lia).
  assert (H' : ~ In (encode "OK") (frames (delivered (fresh 0)))).
  { intros []. }
  split; [exact H|]. split; [reflexivity|]. split; [exact H'|].
  destruct (oversized_subscribe_blocks_shutdown oversized facade0 (fst (fresh 0))
              (snd (fresh 0)) 3 H eq_refl H')
    as (E1 & _ & _ & E2).
  split; [exact E1 | exact E2].
Defined.


(** ** Leaving the loop *)

Lemma api_command_keeps_running cmds u a w :
  brings_term {| pipe_in := Some cmds; udp_in := u |} = false ->
  _terminated (fst (snd (api_command cmds (a, w)))) = _terminated a.
Proof.
  intros Hq. unfold brings_term in Hq. cbn [pipe_in] in Hq.
  unfold api_command, bind, pop0.
  destruct cmds as [|cmd cmds]; [reflexivity|].
  cbn -[utf8_valid is_cmd int_of_bytes encode].
  destruct (negb (utf8_valid cmd)); [reflexivity|].
  destruct (is_cmd cmd "INTERVAL").
  { destruct cmds as [|p cmds]; [reflexivity|].
    cbn -[utf8_valid is_cmd int_of_bytes encode].
    destruct (int_of_bytes p); reflexivity. }
  destruct (is_cmd cmd "NOECHO"); [reflexivity|].
  destruct (is_cmd cmd "PUBLISH").
  { destruct cmds as [|p cmds]; reflexivity. }
  destruct (is_cmd cmd "SILENCE"); [reflexivity|].
  destruct (is_cmd cmd "SUBSCRIBE").
  { destruct cmds as [|p cmds]; reflexivity. }
  destruct (is_cmd cmd "UNSUBSCRIBE"); [reflexivity|].
  rewrite Hq. reflexivity.
Qed.

Lemma recv_keeps_terminated o : preserves _terminated (recv o).
Proof. unfold recv, pipe_send, pipe_send_more, logger. frame. Qed.

Lemma wait_timeout_keeps_terminated : preserves _terminated wait_timeout.
Proof. unfold wait_timeout. frame. Qed.

Lemma iteration_keeps_running items s :
  brings_term items = false ->
  _terminated (fst (snd (iteration items s))) = _terminated (fst s).
Proof.
  intros Hq. revert s.
  change (preserves _terminated (iteration items)). unfold iteration.
  apply preserves_bind; [apply wait_timeout_keeps_terminated | intros t].
  apply preserves_bind; [apply preserves_effect | intros _].
  apply preserves_bind; [|intros _].
  { destruct items as [[cmds|] u]; cbn [pipe_in]; [|apply preserves_ret].
    intros [a w]. now apply api_command_keeps_running with (u := u). }
  apply preserves_bind; [|intros _].
  { destruct (udp_in items); [apply recv_keeps_terminated | apply preserves_ret]. }
  apply transmit_step_keeps_terminated.
Qed.

(** X9: the loop is left by [break] only on [$TERM].  From an agent
    that is not terminated, over poll results none of which brings
    [$TERM], the termination flag stays clear and [run] is either still
    polling or has been left by an exception. *)
Theorem loop_runs_until_term (script : list poll_items) (s : State) :
  _terminated (fst s) = false ->
  forallb (fun items => negb (brings_term items)) script = true ->
  _terminated (fst (snd (run script s))) = false /\
  (fst (run script s) = Ok Polling \/ exists e, fst (run script s) = Raise e).
Proof.
  revert s. induction script as [|items script IH]; intros s Ht Hq.
  - cbn. auto.
  - cbn [forallb] in Hq. apply andb_true_iff in Hq as [Hq1 Hq2].
    apply negb_true_iff in Hq1. rewrite run_cons.
    pose proof (iteration_keeps_running items s Hq1) as K. rewrite Ht in K.
    destruct (iteration items s) as [[[]|e] s1]; cbn [fst snd] in *.
    + rewrite K. now apply IH.
    + split; [exact K | right; eauto].
Qed.

(** X9 on a fresh agent and a script without [$TERM]. *)
Lemma loop_runs_until_term_witness :
  _terminated (fst (fresh 0)) = false /\
  forallb (fun items => negb (brings_term items)) quiet_script = true /\
  _terminated (fst (snd (run quiet_script (fresh 0)))) = false.
Proof.
  split; [reflexivity|]. split; [reflexivity|].
  apply (loop_runs_until_term quiet_script (fresh 0) eq_refl eq_refl).
Defined.


(** ** The facade and the agent together *)

(** X2: [subscribe] with a filter above [BEACON_MAX] has already sent
    the frame [SUBSCRIBE] with [SNDMORE] when it gives up, and does not
    close the message.  The next [publish] closes it: the agent gets
    the one message [SUBSCRIBE, PUBLISH, payload], installs the bytes
    [PUBLISH] as filter and never sees the payload as a payload. *)
Theorem oversized_subscribe_swallows_next_command
        (F P : bytes) (b : ZBeacon.t) (a : ZBeaconAgent) (w : World) :
  BEACON_MAX < List.length F ->
  Pipe.pending (ZBeacon._pipe b) = [] ->
  let b1 := ZBeacon.subscribe F b in
  let b2 := ZBeacon.publish P b1 in
  Pipe.queue (ZBeacon._pipe b1) = Pipe.queue (ZBeacon._pipe b) /\
  Pipe.pending (ZBeacon._pipe b1) = [encode "SUBSCRIBE"] /\
  Pipe.queue (ZBeacon._pipe b2) =
    Pipe.queue (ZBeacon._pipe b) ++
    [[encode "SUBSCRIBE"; encode "PUBLISH"; P]] /\
  api_command [encode "SUBSCRIBE"; encode "PUBLISH"; P] (a, w) =
    (Ok tt, (with__filter (Some (encode "PUBLISH")) a, w)).
Proof.
  intros HF Hb. cbv zeta. unfold ZBeacon.publish, ZBeacon.subscribe.
  apply Nat.ltb_lt in HF. rewrite HF. cbn. rewrite Hb.
  repeat split; reflexivity.
Qed.

(** X2 with a filter of 256 bytes and the payload [A]. *)
Lemma oversized_subscribe_swallows_next_command_witness :
  BEACON_MAX < List.length oversized /\
  Pipe.pending (ZBeacon._pipe facade0) = [] /\
  Pipe.queue (ZBeacon._pipe
    (ZBeacon.publish (encode "A") (ZBeacon.subscribe oversized facade0))) =
    [[encode "SUBSCRIBE"; encode "PUBLISH"; encode "A"]].
Proof.
  assert (H : BEACON_MAX < List.length oversized) by (vm_compute; lia).
  split; [exact H|]. split; [reflexivity|].
  destruct (oversized_subscribe_swallows_next_command oversized (encode "A")
              facade0 (fst (fresh 0)) (snd (fresh 0)) H eq_refl)
    as (_ & _ & E & _).
  exact E.
Defined.


(** X1: on a control channel with no frame pending, [subscribe] (filter
    of at most [BEACON_MAX] bytes), [publish], [unsubscribe] and
    [noecho] each queue exactly one complete message, and the agent's
    [api_command] on that message does the matching update: it stores
    the very filter, stores the very payload and sets the next
    broadcast time to the clock reading, binds the attribute [filter],
    sets the echo flag. *)
Theorem facade_commands_reach_agent
        (F P : bytes) (b : ZBeacon.t) (a : ZBeaconAgent) (w : World) :
  List.length F <= BEACON_MAX ->
  Pipe.pending (ZBeacon._pipe b) = [] ->
  (exists msg,
     ZBeacon._pipe (ZBeacon.subscribe F b) =
       Pipe.mk [] (Pipe.queue (ZBeacon._pipe b) ++ [msg]) /\
     ZBeacon.logged (ZBeacon.subscribe F b) = ZBeacon.logged b /\
     api_command msg (a, w) = (Ok tt, (with__filter (Some F) a, w))) /\
  (exists msg,
     ZBeacon._pipe (ZBeacon.publish P b) =
       Pipe.mk [] (Pipe.queue (ZBeacon._pipe b) ++ [msg]) /\
     api_command msg (a, w) =
       (Ok tt, (with_ping_at (clock w (ticks w)) (with_transmit (Some P) a), tick w))) /\
  (exists msg,
     ZBeacon._pipe (ZBeacon.unsubscribe b) =
       Pipe.mk [] (Pipe.queue (ZBeacon._pipe b) ++ [msg]) /\
     api_command msg (a, w) = (Ok tt, (with_filter None a, w))) /\
  (exists msg,
     ZBeacon._pipe (ZBeacon.noecho b) =
       Pipe.mk [] (Pipe.queue (ZBeacon._pipe b) ++ [msg]) /\
     api_command msg (a, w) = (Ok tt, (with_noecho true a, w))).
Proof.
  intros HF Hb.
  assert (HF' : (BEACON_MAX <? List.length F) = false) by (apply Nat.ltb_ge; exact HF).
  assert (Hsend : forall f p,
             Pipe.pending p = [] ->
             Pipe.send f p = Pipe.mk [] (Pipe.queue p ++ [[f]])).
  { intros f p H. unfold Pipe.send. now rewrite H. }
  assert (Hsend2 : forall f g p,
             Pipe.pending p = [] ->
             Pipe.send g (Pipe.send_more f p) = Pipe.mk [] (Pipe.queue p ++ [[f; g]])).
  { intros f g p H. unfold Pipe.send, Pipe.send_more. cbn. now rewrite H. }
  split; [|split; [|split]].
  - exists [encode "SUBSCRIBE"; F]. unfold ZBeacon.subscribe. rewrite HF'.
    cbn [ZBeacon._pipe ZBeacon.with_pipe ZBeacon.logged].
    split; [now apply Hsend2|]. split; [reflexivity | apply api_subscribe].
  - exists [encode "PUBLISH"; P]. unfold ZBeacon.publish.
    cbn [ZBeacon._pipe ZBeacon.with_pipe].
    split; [now apply Hsend2 | apply api_publish].
  - exists [encode "UNSUBSCRIBE"]. unfold ZBeacon.unsubscribe.
    cbn [ZBeacon._pipe ZBeacon.with_pipe].
    split; [now apply Hsend | apply api_unsubscribe].
  - exists [encode "NOECHO"]. unfold ZBeacon.noecho.
    cbn [ZBeacon._pipe ZBeacon.with_pipe].
    split; [now apply Hsend | apply api_noecho].
Qed.

(** X1 with the filter [ZRE] and the payload [A]. *)
Lemma facade_commands_reach_agent_witness :
  List.length (encode "ZRE") <= BEACON_MAX /\
  Pipe.pending (ZBeacon._pipe facade0) = [] /\
  exists msg,
    ZBeacon._pipe (ZBeacon.subscribe (encode "ZRE") facade0) = Pipe.mk [] [msg] /\
    _filter (fst (snd (api_command msg (fresh 0)))) = Some (encode "ZRE").
Proof.
  assert (H : List.length (encode "ZRE") <= BEACON_MAX) by (vm_compute; lia).
  split; [exact H|]. split; [reflexivity|].
  destruct (facade_commands_reach_agent (encode "ZRE") (encode "A") facade0
              (fst (fresh 0)) (snd (fresh 0)) H eq_refl)
    as ((msg & E1 & _ & E2) & _).
  exists msg. split; [exact E1|].
  change (fst (fresh 0), snd (fresh 0)) with (fresh 0) in E2.
  now rewrite E2.
Defined.


(** ** Commands the agent does not know, and malformed ones *)

(** X7: a command whose first frame is well-formed UTF-8 and none of the
    seven known names is logged and otherwise ignored: [api_command]
    returns normally and the agent is exactly as before, whatever
    frames follow. *)
Theorem unknown_command_ignored (cmd : bytes) (args : list bytes)
        (a : ZBeaconAgent) (w : World) :
  utf8_valid cmd = true ->
  (forall name, In name known_commands -> cmd <> encode name) ->
  api_command (cmd :: args) (a, w) =
    (Ok tt, (a, emit (Log DEBUG "Unexpected API command {0}, {1}") w)).
Proof.
  intros Hu Hn.
  assert (E : forall name, In name known_commands -> is_cmd cmd name = false).
  { intros name Hin. apply bytes_eqb_neq. now apply Hn. }
  unfold api_command, bind, pop0. cbn -[utf8_valid is_cmd int_of_bytes encode].
  rewrite Hu. cbn [negb].
  rewrite !E by (cbn; tauto). reflexivity.
Qed.

(** X7 on the command [PING]. *)
Lemma unknown_command_ignored_witness :
  utf8_valid (encode "PING") = true /\
  api_command [encode "PING"; encode "x"] (fresh 0) =
    (Ok tt, (fst (fresh 0),
             emit (Log DEBUG "Unexpected API command {0}, {1}") (snd (fresh 0)))).
Proof.
  split; [reflexivity|].
  apply (unknown_command_ignored (encode "PING") [encode "x"]
           (fst (fresh 0)) (snd (fresh 0)) eq_refl).
  intros name [<-|[<-|[<-|[<-|[<-|[<-|[<-|[]]]]]]]]; discriminate.
Defined.


Lemma command_raises_in_loop cmds e rest a w :
  (forall w', api_command cmds (a, w') = (Raise e, (a, w'))) ->
  fst (run (command cmds :: rest) (a, w)) = Raise e /\
  fst (snd (run (command cmds :: rest) (a, w))) = a.
Proof.
  intros H. rewrite run_cons.
  destruct (iteration_command cmds a w) as (t & w1 & _ & _ & _ & E).
  rewrite E, (bind_raise _ _ (H _)). split; reflexivity.
Qed.

(** X8: a malformed command ends the agent.  INTERVAL, PUBLISH or
    SUBSCRIBE without their argument frame raise [IndexError], an
    INTERVAL whose argument [int] rejects raises [ValueError], a first
    frame that is not UTF-8 raises [UnicodeDecodeError]; each exception
    leaves [run], no later poll result is handled and the agent's
    attributes are as they were. *)
Theorem malformed_command_stops_agent (a : ZBeaconAgent) (w : World)
        (fr cmd : bytes) (args : list bytes) (rest : list poll_items) :
  (forall name, In name ["INTERVAL"; "PUBLISH"; "SUBSCRIBE"]%string ->
     fst (run (command [encode name] :: rest) (a, w)) = Raise IndexError /\
     fst (snd (run (command [encode name] :: rest) (a, w))) = a) /\
  (int_of_bytes fr = None ->
   fst (run (command [encode "INTERVAL"; fr] :: rest) (a, w)) = Raise ValueError /\
   fst (snd (run (command [encode "INTERVAL"; fr] :: rest) (a, w))) = a) /\
  (utf8_valid cmd = false ->
   fst (run (command (cmd :: args) :: rest) (a, w)) = Raise UnicodeDecodeError /\
   fst (snd (run (command (cmd :: args) :: rest) (a, w))) = a).
Proof.
  split; [|split].
  - intros name [<-|[<-|[<-|[]]]]; apply command_raises_in_loop; reflexivity.
  - intros H. apply command_raises_in_loop. intros w'.
    unfold api_command, bind, pop0. cbn -[int_of_bytes]. now rewrite H.
  - intros H. apply command_raises_in_loop. intros w'.
    unfold api_command, bind, pop0.
    cbn -[utf8_valid is_cmd int_of_bytes encode]. now rewrite H.
Qed.

(** ** Filter and wait, edge cases *)

(** X3: zero-sized filter means get everything.  [subscribe] with the
    empty filter queues [SUBSCRIBE] with an empty frame; once the agent
    has handled it, no datagram is discarded by the filter check: each
    is delivered unless the echo check drops it. *)
Theorem empty_filter_accepts_everything (b : ZBeacon.t) (a : ZBeaconAgent)
        (w : World) (dgram : bytes) (addr : string * Z) :
  Pipe.pending (ZBeacon._pipe b) = [] ->
  exists msg,
    Pipe.queue (ZBeacon._pipe (ZBeacon.subscribe [] b)) =
      Pipe.queue (ZBeacon._pipe b) ++ [msg] /\
    let s1 := snd (api_command msg (a, w)) in
    let D := recvfrom BEACON_MAX dgram in
    _filter (fst s1) = Some [] /\
    recv (Datagram dgram addr) s1 =
      if _noecho a && eq_data (transmit a) D then (Ok tt, s1)
      else (Ok tt, (with_pipe (deliver (fst addr) D (_pipe a)) (fst s1), w)).
Proof.
  intros Hb. exists [encode "SUBSCRIBE"; []]. split.
  - unfold ZBeacon.subscribe. cbn. now rewrite Hb.
  - cbv zeta. rewrite api_subscribe. cbn [fst snd]. split; [reflexivity|].
    rewrite recv_datagram. cbv zeta. reflexivity.
Qed.

(** X3 on the facade just started. *)
Lemma empty_filter_accepts_everything_witness :
  Pipe.pending (ZBeacon._pipe facade0) = [] /\
  exists msg,
    Pipe.queue (ZBeacon._pipe (ZBeacon.subscribe [] facade0)) = [msg] /\
    _filter (fst (snd (api_command msg (fresh 0)))) = Some [].
Proof.
  split; [reflexivity|].
  destruct (empty_filter_accepts_everything facade0 (fst (fresh 0)) (snd (fresh 0))
              (encode "HELLO") peer eq_refl) as (msg & E1 & E2 & _).
  exists msg. split; [exact E1 | exact E2].
Defined.


Lemma timeout_until_spec (ping_at now : Q) :
  (0 <= timeout_until ping_at now)%Q /\
  (ping_at - now <= timeout_until ping_at now)%Q /\
  (timeout_until ping_at now = 0%Q \/ timeout_until ping_at now = (ping_at - now)%Q).
Proof.
  unfold timeout_until, Qltb. cbv zeta.
  destruct (Qle_bool 0 (ping_at - now)) eqn:E; cbn [negb].
  - apply Qle_bool_iff in E. repeat split; auto. apply Qle_refl.
  - assert (~ (0 <= ping_at - now)%Q) by (rewrite <- Qle_bool_iff; congruence).
    repeat split; auto; try apply Qle_refl. apply Qlt_le_weak. now apply Qnot_le_lt.
Qed.

Lemma api_command_no_poll cmds : emits_only not_poll (api_command cmds).
Proof. unfold api_command, pop0, pipe_send, logger. frame. Qed.

Lemma recv_no_poll o : emits_only not_poll (recv o).
Proof. unfold recv, pipe_send, pipe_send_more, logger. frame. Qed.

Lemma transmit_step_no_poll : emits_only not_poll transmit_step.
Proof.
  unfold transmit_step, as_float, send, sendto, _init_socket, setsockopt,
    bind_socket, logger.
  frame.
Qed.

(** X11: every iteration calls [poll] exactly once, first of all, with
    the timeout [t * 1000]: [t] is [-1] when no payload is set; with a
    payload set [t] is never negative, never less than the time left to
    the next broadcast, and is either that time or 0. *)
Theorem poll_timeout_clamped (items : poll_items) (a : ZBeaconAgent) (w : World) :
  exists t tr,
    trace (snd (snd (iteration items (a, w)))) = trace w ++ Poll (t * 1000)%Q :: tr /\
    Forall not_poll tr /\
    (truthy (transmit a) = false -> t = (-1)%Q) /\
    (truthy (transmit a) = true ->
     (0 <= t)%Q /\ (_ping_at a - clock w (ticks w) <= t)%Q /\
     (t = 0%Q \/ t = (_ping_at a - clock w (ticks w))%Q)).
Proof.
  destruct (wait_timeout_world a w) as (t & w1 & E & _ & _ & _ & Htr & Hpub & Hsil).
  set (m := (match pipe_in items with Some cmds => api_command cmds | None => ret tt end ;;
             match udp_in items with Some o => recv o | None => ret tt end ;;
             transmit_step)).
  assert (Ei : iteration items (a, w) = m (a, emit (Poll (t * 1000)%Q) w1)).
  { unfold iteration. rewrite (bind_ok _ _ E). reflexivity. }
  assert (Hm : emits_only not_poll m).
  { subst m. apply emits_bind; [|intros _].
    - destruct (pipe_in items); [apply api_command_no_poll | apply emits_ret].
    - apply emits_bind; [|intros _].
      + destruct (udp_in items); [apply recv_no_poll | apply emits_ret].
      + apply transmit_step_no_poll. }
  destruct (Hm (a, emit (Poll (t * 1000)%Q) w1)) as (tr & Et & Ft).
  exists t, tr. rewrite Ei, Et. cbn [snd trace emit]. rewrite Htr, <- app_assoc.
  split; [reflexivity|]. split; [exact Ft|].
  split; [intros H; apply Hsil; exact H|].
  intros H. destruct (Hpub H) as [-> _]. apply timeout_until_spec.
Qed.

Ltac unfold_init :=
  unfold _init_socket, try_except, bind, self, world, setsockopt,
    bind_socket, udp_call, logger, effect, assign, ret, raise.

(** ** Socket initialisation, case by case *)

(** X14: when the first socket option fails, [_init_socket] stops
    there: it makes that one call, logs the exception and returns
    normally without binding the socket and without touching the
    agent. *)
Theorem init_socket_first_failure (a : ZBeaconAgent) (w : World) (ann : IPv4Address) :
  announce_address a = Some ann ->
  sock_ok w (calls w) = false ->
  exists l o,
    _init_socket (a, w) =
      (Ok tt,
       (a, emit (Log EXCEPTION "Initializing of {0} raised an exception")
                (called (emit (SetSockOpt l o) w)))).
Proof.
  intros Ha Hs. unfold_init. cbn [fst snd]. rewrite Ha.
  destruct (is_multicast ann); cbn [fst snd]; rewrite Hs; cbn [exn_eqb];
    do 2 eexists; reflexivity.
Qed.

(** X14 on a bound agent in a world whose first socket call fails. *)
Lemma init_socket_first_failure_witness :
  announce_address bound_agent = Some LIMITED_BROADCAST /\
  sock_ok flaky_world (calls flaky_world) = false /\
  fst (_init_socket (bound_agent, flaky_world)) = Ok tt /\
  fst (snd (_init_socket (bound_agent, flaky_world))) = bound_agent.
Proof.
  split; [reflexivity|]. split; [reflexivity|].
  destruct (init_socket_first_failure bound_agent flaky_world LIMITED_BROADCAST
              eq_refl eq_refl) as (l & o & E).
  rewrite E. split; reflexivity.
Defined.


(** X15: broadcast mode when every socket call succeeds.  The announce
    address becomes the interface's broadcast address, whatever
    announce address was given; the calls are SO_BROADCAST,
    SO_REUSEADDR, SO_REUSEPORT where the platform has it, and one
    [bind]: to the empty host on platforms whose name starts with
    [win], [darwin] or [freebsd], to the broadcast address elsewhere. *)
Theorem broadcast_init_binds_by_platform (a : ZBeaconAgent) (w : World)
        (ann : IPv4Address) :
  announce_address a = Some ann ->
  is_multicast ann = false ->
  (forall k, sock_ok w k = true) ->
  exists w',
    _init_socket (a, w) =
      (Ok tt, (with_announce_address (broadcast_address a) a, w')) /\
    trace w' =
      trace w ++
      [SetSockOpt "SOL_SOCKET" "SO_BROADCAST";
       SetSockOpt "SOL_SOCKET" "SO_REUSEADDR"] ++
      (if has_reuseport w then [SetSockOpt "SOL_SOCKET" "SO_REUSEPORT"] else []) ++
      [Bind (broadcast_bind_host (platform w) (broadcast_address a)) (_port a);
       Log DEBUG "Set up a broadcast beacon to {0}:{1}"].
Proof.
  intros Ha Hm Hs. unfold_init. cbn [fst snd]. rewrite Ha, Hm.
  unfold broadcast_bind_host.
  repeat first
    [ progress cbn [orb fst snd called emit calls sock_ok exn_eqb
                    has_reuseport platform]
    | match goal with
      | |- context [sock_ok w ?k] => rewrite (Hs k)
      | |- context [if has_reuseport w then _ else _] => destruct (has_reuseport w)
      | |- context [if startswith ?p ?s then _ else _] => destruct (startswith p s)
      | |- context [if ?x || ?y then _ else _] => destruct (x || y)
      end ].
  all: eexists; (split; [reflexivity|]); cbn [trace called emit];
    rewrite <- ?app_assoc; reflexivity.
Qed.

(** X15 on Linux for 192.168.1.5/24: the announce address becomes
    192.168.1.255. *)
Lemma broadcast_init_binds_by_platform_witness :
  announce_address bound_agent = Some LIMITED_BROADCAST /\
  is_multicast LIMITED_BROADCAST = false /\
  (forall k, sock_ok (calm_world 0) k = true) /\
  str_opt (announce_address (fst (snd (_init_socket (bound_agent, calm_world 0))))) =
    "192.168.1.255"%string.
Proof.
  split; [reflexivity|]. split; [reflexivity|]. split; [reflexivity|].
  destruct (broadcast_init_binds_by_platform bound_agent (calm_world 0)
              LIMITED_BROADCAST eq_refl eq_refl (fun _ => eq_refl)) as (w' & E & _).
  rewrite E. reflexivity.
Defined.


(** X16: multicast mode when every socket call succeeds.  The calls are
    the multicast TTL, multicast loop, group membership and SO_REUSEADDR
    options and one [bind] to the agent's own address; SO_REUSEPORT is
    never asked for (the attempt goes through [socket.self] and its
    AttributeError is passed over), and the announce address stays the
    group. *)
Theorem multicast_init_never_reuses_port (a : ZBeaconAgent) (w : World)
        (ann : IPv4Address) :
  announce_address a = Some ann ->
  is_multicast ann = true ->
  (forall k, sock_ok w k = true) ->
  exists w',
    _init_socket (a, w) = (Ok tt, (a, w')) /\
    trace w' =
      trace w ++
      [SetSockOpt "IPPROTO_IP" "IP_MULTICAST_TTL";
       SetSockOpt "IPPROTO_IP" "IP_MULTICAST_LOOP";
       SetSockOpt "SOL_IP" "IP_ADD_MEMBERSHIP";
       SetSockOpt "SOL_SOCKET" "SO_REUSEADDR";
       Bind (str_opt (address a)) (_port a)].
Proof.
  intros Ha Hm Hs. unfold_init. cbn [fst snd]. rewrite Ha, Hm.
  repeat first
    [ progress cbn [fst snd called emit calls sock_ok exn_eqb]
    | match goal with
      | |- context [sock_ok w ?k] => rewrite (Hs k)
      end ].
  eexists. split; [reflexivity|]. cbn [trace called emit].
  rewrite <- ?app_assoc. reflexivity.
Qed.

(** X16 for the group 224.0.0.251. *)
Lemma multicast_init_never_reuses_port_witness :
  announce_address multicast_agent = Some MDNS_GROUP /\
  is_multicast MDNS_GROUP = true /\
  (forall k, sock_ok (calm_world 0) k = true) /\
  fst (snd (_init_socket (multicast_agent, calm_world 0))) = multicast_agent.
Proof.
  split; [reflexivity|]. split; [reflexivity|]. split; [reflexivity|].
  destruct (multicast_init_never_reuses_port multicast_agent (calm_world 0)
              MDNS_GROUP eq_refl eq_refl (fun _ => eq_refl)) as (w' & E & _).
  rewrite E. reflexivity.
Defined.


(** ** Choosing the interface *)

Lemma scan_skips ip_interface skipped rest a w :
  forallb (passed_over ip_interface) skipped = true ->
  exists tr,
    scan_interfaces ip_interface (skipped ++ rest) (a, w) =
      scan_interfaces ip_interface rest (a, emit_all tr w) /\
    Forall is_log tr.
Proof.
  revert w. induction skipped as [|[name settings] more IH]; intros w H.
  - exists []. split; [|constructor]. unfold emit_all. rewrite app_nil_r.
    destruct w; reflexivity.
  - cbn [forallb] in H. apply andb_true_iff in H as [H1 H2].
    cbn [app scan_interfaces]. unfold logger at 1.
    rewrite (bind_ok _ _ (s' := (a, emit_all [Log DEBUG "Checking out interface {0}."] w))
               (x := tt)) by reflexivity.
    set (w1 := emit_all _ w).
    assert (Hskip : forall msg,
               exists tr,
                 (logger DEBUG msg ;; scan_interfaces ip_interface (more ++ rest)) (a, w1)
                 = scan_interfaces ip_interface rest (a, emit_all tr w) /\
                 Forall is_log tr).
    { intros msg. unfold logger.
      rewrite (bind_ok _ _ (s' := (a, emit (Log DEBUG msg) w1)) (x := tt)) by reflexivity.
      destruct (IH (emit (Log DEBUG msg) w1) H2) as (tr & E & F).
      exists ([Log DEBUG "Checking out interface {0}."; Log DEBUG msg] ++ tr)%list.
      split.
      - rewrite E. subst w1. unfold emit, emit_all. cbn. now rewrite <- !app_assoc.
      - apply Forall_app; split; [repeat constructor | exact F]. }
    unfold passed_over in H1. cbn [snd] in H1.
    destruct settings as [[|s sets]|]; try apply Hskip.
    destruct (first_with_both (s :: sets)) as [[a0|] [m0|]] eqn:Ef.
    + destruct (not_str (Some a0) || not_str (Some m0)) eqn:En; [apply Hskip|].
      cbn [orb] in H1.
      destruct (ip_interface (a0 ++ "/" ++ m0)%string) as [i|]; [|discriminate].
      rewrite H1. apply Hskip.
    + rewrite orb_true_r. apply Hskip.
    + apply Hskip.
    + apply Hskip.
Qed.

Lemma scan_usable ip_interface e rest i a w :
  usable ip_interface e = Some i ->
  exists tr,
    scan_interfaces ip_interface (e :: rest) (a, w) =
      (Ok tt, (with_binding (fst e) i a, emit_all tr w)) /\
    Forall is_log tr.
Proof.
  destruct e as [name settings]. unfold usable. cbn [fst snd]. intros H.
  cbn [scan_interfaces].
  destruct settings as [[|s sets]|]; try discriminate.
  destruct (first_with_both (s :: sets)) as [[a0|] [m0|]]; try discriminate.
  destruct (not_str (Some a0) || not_str (Some m0)); [discriminate|].
  destruct (ip_interface (a0 ++ "/" ++ m0)%string) as [i'|]; [|discriminate].
  destruct (is_loopback (ip i')); [discriminate|]. injection H as ->.
  exists [Log DEBUG "Checking out interface {0}."; Log DEBUG "Address: {0}";
          Log DEBUG "Network: {0}"; Log DEBUG "Broadcast: {0}";
          Log DEBUG "Interface name: {0}"].
  split; [|repeat constructor].
  unfold logger, effect, assign, bind, emit_all, emit. cbn.
  rewrite <- !app_assoc. reflexivity.
Qed.

Lemma scan_unparsable ip_interface e rest a w :
  unparsable ip_interface e = true ->
  scan_interfaces ip_interface (e :: rest) (a, w) =
    (Raise ValueError, (a, emit (Log DEBUG "Checking out interface {0}.") w)).
Proof.
  destruct e as [name settings]. unfold unparsable. cbn [fst snd]. intros H.
  cbn [scan_interfaces].
  destruct settings as [[|s sets]|]; try discriminate.
  destruct (first_with_both (s :: sets)) as [[a0|] [m0|]]; try discriminate.
  destruct (not_str (Some a0) || not_str (Some m0)); [discriminate|].
  destruct (ip_interface (a0 ++ "/" ++ m0)%string) as [i'|]; [discriminate|].
  reflexivity.
Qed.

Lemma init_socket_keeps_binding s :
  let a' := fst (snd (_init_socket s)) in
  address a' = address (fst s) /\
  network_address a' = network_address (fst s) /\
  broadcast_address a' = broadcast_address (fst s) /\
  interface_name a' = interface_name (fst s).
Proof.
  cbv zeta. repeat split; revert s;
    match goal with
    | |- forall s, ?f (fst (snd (_init_socket s))) = _ =>
        change (preserves f _init_socket)
    end;
    unfold _init_socket, setsockopt, bind_socket, logger; frame.
Qed.

(** X17: first match wins.  When the interface list starts with entries
    the scan passes over, followed by a usable one, construction binds
    that one, whatever follows it: address, network address (address
    and netmask), broadcast address (network or inverted netmask) and
    interface name.  It then reports the dotted-quad address as the
    first message on the control channel and enters the loop; the
    facade reads that address as host name, also after the loop has
    run. *)
Theorem startup_binds_first_usable_interface
        (ip_interface : string -> option IPv4Interface) (port : Z)
        (ann : IPv4Address) (skipped : list interface_entry)
        (e : interface_entry) (rest : list interface_entry) (i : IPv4Interface)
        (script : list poll_items) (w : World) :
  forallb (passed_over ip_interface) skipped = true ->
  usable ip_interface e = Some i ->
  exists s2,
    __init__ ip_interface Pipe.empty port ann (skipped ++ e :: rest) script w =
      run script s2 /\
    address (fst s2) = Some (ip i) /\
    network_address (fst s2) = Some (if_network_address i) /\
    broadcast_address (fst s2) = Some (if_broadcast_address i) /\
    interface_name (fst s2) = Some (fst e) /\
    delivered s2 = [[encode (str_ip (ip i))]] /\
    ZBeacon.recv_hostname (_pipe (fst s2)) = Some (encode (str_ip (ip i))) /\
    ZBeacon.recv_hostname (_pipe (fst (snd (run script s2)))) =
      Some (encode (str_ip (ip i))).
Proof.
  intros Hs Hu. unfold __init__, init_body.
  set (a0 := new_agent Pipe.empty port ann).
  unfold logger at 1.
  rewrite (bind_ok _ _ (s' := (a0, emit (Log DEBUG "Available interfaces: {0}") w))
             (x := tt)) by reflexivity.
  set (w0 := emit _ w).
  destruct (scan_skips ip_interface skipped (e :: rest) a0 w0 Hs) as (tr1 & E1 & _).
  destruct (scan_usable ip_interface e rest i a0 (emit_all tr1 w0) Hu) as (tr2 & E2 & _).
  rewrite E2 in E1. rewrite (bind_ok _ _ E1).
  set (a1 := with_binding (fst e) i a0). set (w1 := emit_all tr2 _).
  unfold logger at 1.
  rewrite (bind_ok _ _ (s' := (a1, emit (Log DEBUG "Finished scanning interfaces.") w1))
             (x := tt)) by reflexivity.
  set (w2 := emit _ w1).
  rewrite (bind_ok _ _ (s' := (a1, w2)) (x := a1)) by reflexivity.
  cbn [address a1 with_binding].
  rewrite (bind_ok _ _ (s' := (a1, w2)) (x := tt)) by reflexivity.
  destruct (init_socket_returns a1 w2 ann eq_refl)
    as (a' & w' & l & o & trs & Ei & _).
  pose proof (init_socket_keeps_pipe (a1, w2)) as Kp.
  pose proof (init_socket_keeps_binding (a1, w2)) as (Ka & Kn & Kb & Ki).
  rewrite Ei in Kp, Ka, Kn, Kb, Ki. cbn [fst snd] in Kp, Ka, Kn, Kb, Ki.
  rewrite (bind_ok _ _ Ei).
  rewrite (bind_ok _ _ (s' := (a', w')) (x := a')) by reflexivity.
  rewrite Ka. cbn [address a1 with_binding str_opt].
  rewrite (bind_ok _ _
             (s' := (with_pipe (Pipe.send (encode (str_ip (ip i))) (_pipe a')) a', w'))
             (x := tt)) by reflexivity.
  exists (with_pipe (Pipe.send (encode (str_ip (ip i))) (_pipe a')) a', w').
  split; [reflexivity|]. cbn [fst].
  split; [exact Ka|]. split; [exact Kn|]. split; [exact Kb|]. split; [exact Ki|].
  split; [unfold delivered; cbn; rewrite Kp; reflexivity|].
  split; [cbn; rewrite Kp; reflexivity|].
  destruct (run_speaks script
              (with_pipe (Pipe.send (encode (str_ip (ip i))) (_pipe a')) a', w')
              eq_refl) as (_ & msgs & E & _).
  unfold ZBeacon.recv_hostname. unfold delivered in E. rewrite E.
  cbn. rewrite Kp. reflexivity.
Qed.

(** X17 on a host with loopback, an interface without IPv4 address and
    two Ethernet interfaces. *)
Lemma startup_binds_first_usable_interface_witness :
  forallb (passed_over demo_ip_interface) (firstn 2 lan_host) = true /\
  usable demo_ip_interface (nth 2 lan_host (""%string, None)) =
    Some {| ip := 3232235781%Z; netmask := 4294967040%Z |} /\
  exists s2,
    __init__ demo_ip_interface Pipe.empty 5670 LIMITED_BROADCAST lan_host []
             (calm_world 0) = (Ok Polling, s2) /\
    interface_name (fst s2) = Some "eth0"%string /\
    ZBeacon.recv_hostname (_pipe (fst s2)) = Some (encode "192.168.1.5").
Proof.
  split; [reflexivity|]. split; [reflexivity|].
  destruct (startup_binds_first_usable_interface demo_ip_interface 5670
              LIMITED_BROADCAST (firstn 2 lan_host)
              (nth 2 lan_host (""%string, None)) (skipn 3 lan_host)
              {| ip := 3232235781%Z; netmask := 4294967040%Z |}
              [] (calm_world 0) eq_refl eq_refl)
    as (s2 & E & _ & _ & _ & Hn & _ & Hh & _).
  exists s2. split; [exact E|]. split; [exact Hn | exact Hh].
Defined.


(** X18: when the first entry the scan does not pass over has address
    and netmask that [ip_interface] rejects, construction ends with
    [ValueError]: no socket call has been made, nothing has been sent
    on the control channel (the facade's wait for the host name has
    nothing to read), and only log lines were written. *)
Theorem unparsable_interface_aborts_startup
        (ip_interface : string -> option IPv4Interface) (port : Z)
        (ann : IPv4Address) (skipped : list interface_entry)
        (e : interface_entry) (rest : list interface_entry)
        (script : list poll_items) (w : World) :
  forallb (passed_over ip_interface) skipped = true ->
  unparsable ip_interface e = true ->
  let r := __init__ ip_interface Pipe.empty port ann (skipped ++ e :: rest) script w in
  fst r = Raise ValueError /\
  fst (snd r) = new_agent Pipe.empty port ann /\
  ZBeacon.recv_hostname (_pipe (fst (snd r))) = None /\
  calls (snd (snd r)) = calls w /\
  exists tr, trace (snd (snd r)) = trace w ++ tr /\ Forall is_log tr.
Proof.
  intros Hs Hu. cbv zeta.
  set (a0 := new_agent Pipe.empty port ann).
  set (w0 := emit (Log DEBUG "Available interfaces: {0}") w).
  destruct (scan_skips ip_interface skipped (e :: rest) a0 w0 Hs) as (tr1 & E1 & F1).
  rewrite (scan_unparsable ip_interface e rest a0 (emit_all tr1 w0) Hu) in E1.
  assert (E : __init__ ip_interface Pipe.empty port ann (skipped ++ e :: rest) script w =
              (Raise ValueError,
               (a0, emit (Log DEBUG "Checking out interface {0}.") (emit_all tr1 w0)))).
  { unfold __init__, init_body. fold a0. unfold logger at 1.
    rewrite (bind_ok _ _ (s' := (a0, w0)) (x := tt)) by reflexivity.
    now rewrite (bind_raise _ _ E1). }
  rewrite E. cbn [fst snd].
  do 4 (split; [reflexivity|]).
  exists (Log DEBUG "Available interfaces: {0}" :: tr1 ++
          [Log DEBUG "Checking out interface {0}."]).
  split.
  - subst w0. cbn [trace emit emit_all]. rewrite <- !app_assoc. reflexivity.
  - constructor; [exact I|]. apply Forall_app. split; [exact F1 | repeat constructor].
Qed.

(** X18 on a host whose Ethernet address is 300.1.1.1. *)
Lemma unparsable_interface_aborts_startup_witness :
  forallb (passed_over demo_ip_interface) (firstn 1 broken_host) = true /\
  unparsable demo_ip_interface (nth 1 broken_host (""%string, None)) = true /\
  fst (__init__ demo_ip_interface Pipe.empty 5670 LIMITED_BROADCAST broken_host
                [] (calm_world 0)) = Raise ValueError.
Proof.
  split; [reflexivity|]. split; [reflexivity|].
  apply (unparsable_interface_aborts_startup demo_ip_interface 5670
           LIMITED_BROADCAST (firstn 1 broken_host)
           (nth 1 broken_host (""%string, None)) (skipn 2 broken_host)
           [] (calm_world 0) eq_refl eq_refl).
Defined.


(** ** When a datagram is delivered *)

(** X5: the delivery criterion of the receive cycle.  A received
    datagram [D] (its first [BEACON_MAX] bytes) is delivered, as the
    message of sender host and [D], exactly when it is neither filtered
    (a non-empty filter is set, [D] is strictly longer and does not
    start with it) nor an echo (the echo flag is set and [D] equals the
    payload); otherwise the control channel is left as it was.  [recv]
    returns normally in both cases. *)
Theorem recv_delivers_iff (a : ZBeaconAgent) (w : World) (dgram : bytes)
        (addr : string * Z) :
  let D := recvfrom BEACON_MAX dgram in
  let r := recv (Datagram dgram addr) (a, w) in
  let filtered :=
    exists F, _filter a = Some F /\ F <> [] /\
              List.length F < List.length D /\ ~ starts_with F D in
  let echo := _noecho a = true /\ transmit a = Some D in
  fst r = Ok tt /\
  (~ filtered /\ ~ echo -> _pipe (fst (snd r)) = deliver (fst addr) D (_pipe a)) /\
  (filtered \/ echo -> _pipe (fst (snd r)) = _pipe a).
Proof.
  cbv zeta. rewrite recv_datagram. cbv zeta.
  generalize (recvfrom BEACON_MAX dgram). intros D.
  destruct (filter_mismatch (_filter a) D) eqn:Ef.
  - assert (Hf : exists F, _filter a = Some F /\ F <> [] /\
                   List.length F < List.length D /\ ~ starts_with F D).
    { destruct (_filter a) as [F|] eqn:E; [|discriminate].
      exists F. split; [reflexivity|]. now apply filter_mismatch_true. }
    cbn [fst snd]. split; [reflexivity|]. split; [|reflexivity].
    intros [H _]. contradiction.
  - assert (Hf : ~ exists F, _filter a = Some F /\ F <> [] /\
                   List.length F < List.length D /\ ~ starts_with F D).
    { intros (F & E & H). rewrite E in Ef. apply filter_mismatch_true in H.
      congruence. }
    destruct (_noecho a && eq_data (transmit a) D) eqn:Ee; cbn [fst snd].
    + apply andb_true_iff in Ee as [E1 E2].
      assert (He : _noecho a = true /\ transmit a = Some D).
      { split; [exact E1|]. destruct (transmit a) as [p|]; [|discriminate].
        cbn in E2. apply bytes_eqb_eq in E2. now subst. }
      split; [reflexivity|]. split; [|reflexivity].
      intros [_ H]. contradiction.
    + split; [reflexivity|]. split; [reflexivity|].
      intros [H|[H1 H2]]; [contradiction|].
      rewrite H1, H2 in Ee. cbn in Ee. rewrite bytes_eqb_refl in Ee. discriminate.
Qed.

(** ** The size limit on the receiving side *)

(** X4: a filter of exactly [BEACON_MAX] bytes, the longest the facade
    forwards, rejects nothing: [recvfrom] reads at most [BEACON_MAX]
    bytes, so no datagram is strictly longer than the filter and the
    prefix comparison is never made. *)
Theorem longest_filter_rejects_nothing (F : bytes) (b : ZBeacon.t)
        (a : ZBeaconAgent) (w : World) (dgram : bytes) (addr : string * Z) :
  List.length F = BEACON_MAX ->
  Pipe.pending (ZBeacon._pipe b) = [] ->
  let D := recvfrom BEACON_MAX dgram in
  Pipe.queue (ZBeacon._pipe (ZBeacon.subscribe F b)) =
    Pipe.queue (ZBeacon._pipe b) ++ [[encode "SUBSCRIBE"; F]] /\
  let s1 := snd (api_command [encode "SUBSCRIBE"; F] (a, w)) in
  filter_mismatch (_filter (fst s1)) D = false /\
  _pipe (fst (snd (recv (Datagram dgram addr) s1))) =
    if _noecho a && eq_data (transmit a) D then _pipe a
    else deliver (fst addr) D (_pipe a).
Proof.
  intros HF Hb. cbv zeta. split.
  - unfold ZBeacon.subscribe.
    assert (E : (BEACON_MAX <? List.length F) = false) by (apply Nat.ltb_ge; lia).
    rewrite E. unfold Pipe.send, Pipe.send_more. cbn. now rewrite Hb.
  - rewrite api_subscribe. cbn [fst snd _filter with__filter].
    assert (E : filter_mismatch (Some F) (recvfrom BEACON_MAX dgram) = false).
    { destruct (filter_mismatch _ _) eqn:E; [|reflexivity].
      apply filter_mismatch_true in E as (_ & Hlen & _).
      pose proof (recvfrom_length BEACON_MAX dgram). lia. }
    split; [exact E|]. rewrite recv_datagram. cbv zeta.
    cbn [_filter with__filter transmit _noecho _pipe]. rewrite E.
    destruct (_noecho a && _); reflexivity.
Qed.

(** X4 with a filter of 255 bytes and the datagram [HELLO]. *)
Lemma longest_filter_rejects_nothing_witness :
  List.length (repeat "x"%byte 255) = BEACON_MAX /\
  Pipe.pending (ZBeacon._pipe facade0) = [] /\
  filter_mismatch
    (_filter (fst (snd (api_command [encode "SUBSCRIBE"; repeat "x"%byte 255]
                                    (fresh 0)))))
    (recvfrom BEACON_MAX (encode "HELLO")) = false.
Proof.
  assert (H : List.length (repeat "x"%byte 255) = BEACON_MAX) by reflexivity.
  split; [exact H|]. split; [reflexivity|].
  destruct (longest_filter_rejects_nothing (repeat "x"%byte 255) facade0
              (fst (fresh 0)) (snd (fresh 0)) (encode "HELLO") peer H eq_refl)
    as (_ & E & _).
  exact E.
Defined.


(** X6: a payload above [BEACON_MAX] defeats the echo check.  With no
    filter in the way, the agent's own datagram comes back cut to
    [BEACON_MAX] bytes, differs from the stored payload and is
    delivered as a PeerAnnouncement, echo flag or not. *)
Theorem oversized_payload_is_echoed_back (P : bytes) (a : ZBeaconAgent)
        (w : World) (addr : string * Z) :
  BEACON_MAX < List.length P ->
  truthy (_filter a) = false ->
  let s1 := snd (api_command [encode "PUBLISH"; P] (a, w)) in
  transmit (fst s1) = Some P /\
  recv (Datagram P addr) s1 =
    (Ok tt,
     (with_pipe (deliver (fst addr) (recvfrom BEACON_MAX P) (_pipe a)) (fst s1),
      snd s1)).
Proof.
  intros HP Hf. cbv zeta. rewrite api_publish. cbn [fst snd].
  split; [reflexivity|]. rewrite recv_datagram. cbv zeta.
  cbn [_filter with_ping_at with_transmit transmit _noecho _pipe eq_data].
  assert (E1 : filter_mismatch (_filter a) (recvfrom BEACON_MAX P) = false).
  { unfold filter_mismatch. destruct (_filter a); [|reflexivity]. now rewrite Hf. }
  assert (E2 : bytes_eqb P (recvfrom BEACON_MAX P) = false).
  { apply bytes_eqb_neq. intros E. apply (f_equal (@List.length byte)) in E.
    pose proof (recvfrom_length BEACON_MAX P). lia. }
  rewrite E1, E2, andb_false_r. reflexivity.
Qed.

(** X6 with the payload of 256 bytes. *)
Lemma oversized_payload_is_echoed_back_witness :
  BEACON_MAX < List.length oversized /\
  truthy (_filter (fst (fresh 0))) = false /\
  delivered (snd (recv (Datagram oversized peer)
                       (snd (api_command [encode "PUBLISH"; oversized] (fresh 0))))) =
    [[encode "10.0.0.2"; recvfrom BEACON_MAX oversized]].
Proof.
  assert (H : BEACON_MAX < List.length oversized) by (vm_compute; lia).
  split; [exact H|]. split; [reflexivity|].
  destruct (oversized_payload_is_echoed_back oversized (fst (fresh 0))
              (snd (fresh 0)) peer H eq_refl) as (_ & E).
  change (fst (fresh 0), snd (fresh 0)) with (fresh 0) in E.
  rewrite E. reflexivity.
Defined.

